(** * rasa.nlu.data_router: admission-controlled job router

    A shallow embedding of [src/rasa/nlu/data_router.py]: the emulator
    factory, the future-to-Deferred bridge, and the [DataRouter] methods
    [start_train_process] and [evaluate] with the completion callbacks they
    attach.  Router state is threaded explicitly through a small
    state-and-exception monad, so that a raised exception leaves whatever
    mutation preceded it, as in Python. *)

From stdpp Require Import base option numbers strings list gmap fin_maps.
From Stdlib Require Import ZArith Ascii String Lia.

Local Open Scope Z_scope.
Local Open Scope string_scope.

(** ** Exceptions *)

(** The exception classes the router raises itself, the [KeyError] of a
    failed [project_store[project]] subscript, and [WorkerError] for
    whatever a job raised inside a pool worker. *)
Inductive Exception : Type :=
  | InvalidProjectError (message : string)
  | UnsupportedModelError (message : string)
  | MaxWorkerProcessError
  | ValueError (message : string)
  | KeyError (key : string)
  | WorkerError (repr : string).

(** ** The state-and-exception monad *)

Module Py.
Definition M (S A : Type) : Type := S -> S * (Exception + A).

Definition ret {S A} (a : A) : M S A := fun s => (s, inr a).
Definition raise {S A} (e : Exception) : M S A := fun s => (s, inl e).
Definition get {S} : M S S := fun s => (s, inr s).
Definition modify {S} (f : S -> S) : M S unit := fun s => (f s, inr tt).
Definition bind {S A B} (m : M S A) (k : A -> M S B) : M S B :=
  fun s => match m s with
           | (s', inr a) => k a s'
           | (s', inl e) => (s', inl e)
           end.
End Py.

Notation "x <~ m ;; k" := (Py.bind m (fun x => k))
  (at level 100, m at next level, right associativity).
Notation "m ;;; k" := (Py.bind m (fun _ => k))
  (at level 100, right associativity).

(** ** Emulator factory *)

(** [str.lower] on the ASCII range; [Text] values are modelled as strings of
    ASCII characters. *)
Definition lower_ascii (c : ascii) : ascii :=
  let n := nat_of_ascii c in
  if ((65 <=? n) && (n <=? 90))%nat then ascii_of_nat (n + 32) else c.

Fixpoint lower (s : string) : string :=
  match s with
  | EmptyString => EmptyString
  | String c s' => String (lower_ascii c) (lower s')
  end.

Inductive Emulator : Type :=
  | NoEmulator
  | WitEmulator
  | LUISEmulator
  | DialogflowEmulator.

Definition _create_emulator (mode : option string) : Exception + Emulator :=
  match mode with
  | None => inr NoEmulator
  | Some mode =>
      if String.eqb (lower mode) "wit" then inr WitEmulator
      else if String.eqb (lower mode) "luis" then inr LUISEmulator
      else if String.eqb (lower mode) "dialogflow" then inr DialogflowEmulator
      else inl (ValueError ("unknown mode : " ++ mode))
  end.

(** The enumeration of modes as the specification words it: the absent mode
    and the three emulator names. *)
Definition mode_enumeration : list (option string) :=
  [None; Some "wit"; Some "luis"; Some "dialogflow"].

Definition succeeds {A} (r : Exception + A) : Prop :=
  match r with inr _ => True | inl _ => False end.

Definition fails_with_ValueError {A} (r : Exception + A) : Prop :=
  match r with inl (ValueError _) => True | _ => False end.

(** ** The future-to-Deferred bridge *)

(** A finished [concurrent.futures.Future]: it holds the job's return value
    or the exception the job raised. *)
Inductive Future (V : Type) : Type :=
  | Returned (v : V)
  | Raised (e : Exception).
Arguments Returned {V} v.
Arguments Raised {V} e.

(** [future.exception()]: the raised exception, or [None]. *)
Definition exception {V} (future : Future V) : option Exception :=
  match future with
  | Returned _ => None
  | Raised e => Some e
  end.

(** [future.result()]: the value, or the raised exception raised again. *)
Definition result {V} (future : Future V) : Exception + V :=
  match future with
  | Returned v => inr v
  | Raised e => inl e
  end.

(** [twisted.python.failure.Failure]: the wrapper handed to errbacks. *)
Record Failure : Type := mkFailure { value : Exception }.

(** What a [Deferred] was fired with. *)
Inductive Outcome (V : Type) : Type :=
  | Succeeded (v : V)
  | Failed (f : Failure).
Arguments Succeeded {V} v.
Arguments Failed {V} f.

Module Bridge.
(** A call handed to [reactor.callFromThread]. *)
Inductive Call (V : Type) : Type :=
  | d_errback (e : Exception)
  | d_callback (v : V).
Arguments d_errback {V} e.
Arguments d_callback {V} v.

(** The reactor's queue of calls from other threads, and the log of firings
    of the Deferred [d]. *)
Record State (V : Type) : Type := mkState {
  queue : list (Call V);
  fired : list (Outcome V);
}.
Arguments mkState {V} queue fired.
Arguments queue {V} s.
Arguments fired {V} s.

Definition initial {V} : State V := mkState [] [].

(** Calling [d.errback(e)] or [d.callback(v)]. *)
Definition invoke {V} (c : Call V) (s : State V) : State V :=
  match c with
  | d_errback e => mkState (queue s) (fired s ++ [Failed (mkFailure e)])
  | d_callback v => mkState (queue s) (fired s ++ [Succeeded v])
  end.

(** [reactor.callFromThread(f, x)]: queue the call for the reactor. *)
Definition callFromThread {V} (c : Call V) (s : State V) : State V :=
  mkState (queue s ++ [c]) (fired s).

(** The reactor thread running every queued call, oldest first. *)
Definition reactor_iterate {V} (s : State V) : State V :=
  fold_left (fun s c => invoke c s) (queue s) (mkState [] (fired s)).

(** The done-callback [deferred_from_future] registers on the future.  An
    exception object is truthy, so [if e:] tests [e is not None]. *)
Definition callback {V} (DEFERRED_RUN_IN_REACTOR_THREAD : bool)
    (future : Future V) (s : State V) : State V * (Exception + unit) :=
  match exception future with
  | Some e =>
      if DEFERRED_RUN_IN_REACTOR_THREAD
      then (callFromThread (d_errback e) s, inr tt)
      else (invoke (d_errback e) s, inr tt)
  | None =>
      match result future with
      | inl e => (s, inl e)
      | inr v =>
          if DEFERRED_RUN_IN_REACTOR_THREAD
          then (callFromThread (d_callback v) s, inr tt)
          else (invoke (d_callback v) s, inr tt)
      end
  end.
End Bridge.

(** [deferred_from_future(future)], observed once the future is done and the
    reactor has run its queue: every firing of the returned Deferred. *)
Definition deferred_from_future {V} (DEFERRED_RUN_IN_REACTOR_THREAD : bool)
    (future : Future V) : list (Outcome V) :=
  Bridge.fired
    (Bridge.reactor_iterate
       (fst (Bridge.callback DEFERRED_RUN_IN_REACTOR_THREAD future
               Bridge.initial))).

(** The job's own outcome, as the specification words it. *)
Definition job_outcome {V} (future : Future V) : Outcome V :=
  match future with
  | Returned v => Succeeded v
  | Raised e => Failed (mkFailure e)
  end.

(** ** Projects *)

(** Modelled from the spec: the status constants of [rasa.nlu.project],
    which is not among the sources; the enumeration TRAINING, READY,
    FAILED. *)
Inductive Status : Type :=
  | STATUS_READY
  | STATUS_TRAINING
  | STATUS_FAILED.

Global Instance Status_eq_dec : EqDecision Status.
Proof. solve_decision. Defined.

(** Modelled from the spec: the [Project] class of [rasa.nlu.project], which
    is not among the sources.  The record carries the fields of the
    specification's data model. *)
Record Project : Type := mkProject {
  status : Status;
  current_worker_processes : Z;
  error_message : option string;
  _models : list string;
  _path : string;
}.

Definition set_status (st : Status) (p : Project) : Project :=
  mkProject st (current_worker_processes p) (error_message p)
            (_models p) (_path p).

Definition set_current_worker_processes (n : Z) (p : Project) : Project :=
  mkProject (status p) n (error_message p) (_models p) (_path p).

Definition set_error_message (m : option string) (p : Project) : Project :=
  mkProject (status p) (current_worker_processes p) m (_models p) (_path p).

(** Modelled from the spec: [Project.update], which is not among the sources;
    it records the new model under the project. *)
Definition update (model_dir : string) (p : Project) : Project :=
  mkProject (status p) (current_worker_processes p) (error_message p)
            (model_dir :: _models p) (_path p).

(** What the router uses but does not define: constants and helpers of other
    modules, and the result types of the worker jobs. *)
Class Externals : Type := {
  RasaNLUModelConfig : Type;
  EvaluationResult : Type;
  DEFAULT_PROJECT_NAME : string;
  FALLBACK_MODEL_NAME : string;
  _dynamic_load_model : Project -> option string -> string;
  _search_for_models : string -> list string;
  path_join : string -> string -> string;
  basename_normpath : string -> string;
  create_temporary_file : string -> string -> string;
  getBriefTraceback : Failure -> string;
}.

(** ** The router *)

Record DataRouter : Type := mkDataRouter {
  _worker_processes : Z;
  _current_worker_processes : Z;
  project_dir : string;
  emulator : Emulator;
  project_store : gmap string Project;
}.

Definition set_current (n : Z) (self : DataRouter) : DataRouter :=
  mkDataRouter (_worker_processes self) n (project_dir self) (emulator self)
               (project_store self).

Definition set_project_store (m : gmap string Project) (self : DataRouter)
  : DataRouter :=
  mkDataRouter (_worker_processes self) (_current_worker_processes self)
               (project_dir self) (emulator self) m.

(** [self.project_store[project]]: a missing key raises [KeyError]. *)
Definition getitem (project : string) : Py.M DataRouter Project :=
  fun self =>
    match project_store self !! project with
    | Some p => (self, inr p)
    | None => (self, inl (KeyError project))
    end.

(** [self.project_store[project] = p] *)
Definition setitem (project : string) (p : Project) : Py.M DataRouter unit :=
  Py.modify (fun self =>
    set_project_store (<[project := p]> (project_store self)) self).

(** [self.project_store[project].attr = ...], as a change [f] of the record
    the key refers to. *)
Definition setattr (project : string) (f : Project -> Project)
  : Py.M DataRouter unit :=
  p <~ getitem project ;; setitem project (f p).

(** [x or y] on an optional text: [None] and the empty string are falsy. *)
Definition py_or (x : option string) (y : string) : string :=
  match x with
  | Some (String c s) => String c s
  | _ => y
  end.

Section Router.
Context `{Externals}.

(** Modelled from the spec: the constructor of [Project], which is not
    among the sources.  A new record has no job in flight and no error
    message; its models are those found under its path. *)
Definition new_Project (project project_dir : string) : Project :=
  let path := path_join project_dir project in
  mkProject STATUS_READY 0 None (_search_for_models path) path.

(** [str(failure)] as Twisted's [Failure.__str__] builds it. *)
Definition str_Failure (failure : Failure) : string :=
  "[Failure instance: " ++ getBriefTraceback failure ++ "]".

(** What is handed to [self.pool.submit]. *)
Inductive Submission : Type :=
  | do_train_in_worker (train_config : RasaNLUModelConfig)
      (data_file path project : string) (fixed_model_name : option string)
  | run_evaluation (data_path model_path : string).

(** Which pair of closures was attached to the returned Deferred, with the
    [project] they close over. *)
Inductive Handlers : Type :=
  | TrainingHandlers (project : string)
  | EvaluationHandlers (project : string).

Record Deferred : Type := mkDeferred {
  job : Submission;
  handlers : Handlers;
}.

Definition training_callback (project model_path : string)
  : Py.M DataRouter string :=
  let model_dir := basename_normpath model_path in
  setattr project (update model_dir) ;;;
  Py.modify (fun self =>
    set_current (_current_worker_processes self - 1) self) ;;;
  setattr project (fun p =>
    set_current_worker_processes (current_worker_processes p - 1) p) ;;;
  p <~ getitem project ;;
  (if bool_decide (status p = STATUS_TRAINING)
      && (current_worker_processes p =? 0)%Z
   then setattr project (set_status STATUS_READY)
   else Py.ret tt) ;;;
  Py.ret model_path.

Definition training_errback (project : string) (failure : Failure)
  : Py.M DataRouter Failure :=
  Py.modify (fun self =>
    set_current (_current_worker_processes self - 1) self) ;;;
  setattr project (fun p =>
    set_current_worker_processes (current_worker_processes p - 1) p) ;;;
  setattr project (set_status STATUS_FAILED) ;;;
  setattr project (set_error_message (Some (str_Failure failure))) ;;;
  Py.ret failure.

Definition start_train_process (data_file project : string)
    (train_config : RasaNLUModelConfig) (model_name : option string)
  : Py.M DataRouter Deferred :=
  if bool_decide (project = "")
  then Py.raise (InvalidProjectError "Missing project name to train")
  else
    self <~ Py.get ;;
    if (_worker_processes self <=? _current_worker_processes self)%Z
    then Py.raise MaxWorkerProcessError
    else
      (if bool_decide (is_Some (project_store self !! project))
       then setattr project (set_status STATUS_TRAINING)
       else
         setitem project (new_Project project (project_dir self)) ;;;
         setattr project (set_status STATUS_TRAINING)) ;;;
      Py.modify (fun self =>
        set_current (_current_worker_processes self + 1) self) ;;;
      setattr project (fun p =>
        set_current_worker_processes (current_worker_processes p + 1) p) ;;;
      self <~ Py.get ;;
      Py.ret (mkDeferred
                (do_train_in_worker train_config data_file
                   (project_dir self) project model_name)
                (TrainingHandlers project)).

Definition evaluation_callback (project : string) (result : EvaluationResult)
  : Py.M DataRouter EvaluationResult :=
  Py.modify (fun self =>
    set_current (_current_worker_processes self - 1) self) ;;;
  setattr project (fun p =>
    set_current_worker_processes (current_worker_processes p - 1) p) ;;;
  Py.ret result.

Definition evaluation_errback (project : string) (failure : Failure)
  : Py.M DataRouter Failure :=
  Py.modify (fun self =>
    set_current (_current_worker_processes self - 1) self) ;;;
  setattr project (fun p =>
    set_current_worker_processes (current_worker_processes p - 1) p) ;;;
  Py.ret failure.

Definition evaluate (data : string) (project model : option string)
  : Py.M DataRouter Deferred :=
  self <~ Py.get ;;
  if (_worker_processes self <=? _current_worker_processes self)%Z
  then Py.raise MaxWorkerProcessError
  else
    let project := py_or project DEFAULT_PROJECT_NAME in
    let data_path := create_temporary_file data "_training_data" in
    if bool_decide (project_store self !! project = None)
    then Py.raise (InvalidProjectError
                     ("Project '" ++ project ++ "' could not be found."))
    else
      p <~ getitem project ;;
      let model := py_or model (_dynamic_load_model p model) in
      if bool_decide (model = FALLBACK_MODEL_NAME)
      then Py.raise (UnsupportedModelError
                       ("No model in project '" ++ project
                          ++ "' to evaluate."))
      else
        let model_path := path_join (_path p) model in
        Py.modify (fun self =>
          set_current (_current_worker_processes self + 1) self) ;;;
        setattr project (fun p =>
          set_current_worker_processes (current_worker_processes p + 1) p) ;;;
        Py.ret (mkDeferred (run_evaluation data_path model_path)
                  (EvaluationHandlers project)).

(** ** Firing a Deferred

    [result.addCallback(cb); result.addErrback(eb)]: a success runs [cb],
    and an exception raised by [cb] is passed on to [eb] as a failure; a
    failure skips [cb] and runs [eb]. *)
Definition run_callbacks {V} (cb : V -> Py.M DataRouter V)
    (eb : Failure -> Py.M DataRouter Failure) (o : Outcome V)
    (self : DataRouter) : DataRouter * Outcome V :=
  let '(self1, o1) :=
    match o with
    | Succeeded v =>
        match cb v self with
        | (s, inr v') => (s, Succeeded v')
        | (s, inl e) => (s, Failed (mkFailure e))
        end
    | Failed f => (self, Failed f)
    end in
  match o1 with
  | Succeeded v => (self1, Succeeded v)
  | Failed f =>
      match eb f self1 with
      | (s, inr f') => (s, Failed f')
      | (s, inl e) => (s, Failed (mkFailure e))
      end
  end.
End Router.

Global Instance Project_eq_dec : EqDecision Project.
Proof. solve_decision. Defined.

Section Server.
Context `{Externals}.

(** [_create_project_store], given the names [_collect_projects] lists.
    Modelled from the spec: [load_from_server], which is not among the
    sources, yields a newly constructed record for the default project. *)
Definition _create_project_store (project_dir : string)
    (model_server : bool) (projects : list string) : gmap string Project :=
  let default_project := DEFAULT_PROJECT_NAME in
  if model_server
  then {[ default_project := new_Project default_project project_dir ]}
  else
    let project_store :=
      fold_left (fun store project =>
                   <[project := new_Project project project_dir]> store)
                projects ∅ in
    if bool_decide (project_store = ∅)
    then {[ default_project := new_Project default_project project_dir ]}
    else project_store.

(** [DataRouter.__init__]: the fields the operations below read. *)
Definition DataRouter_init (project_dir : string) (max_worker_processes : Z)
    (emulation_mode : option string) (model_server : bool)
    (projects : list string) : Exception + DataRouter :=
  match _create_emulator emulation_mode with
  | inl e => inl e
  | inr emulator =>
      inr (mkDataRouter (Z.max max_worker_processes 1) 0 project_dir
             emulator
             (_create_project_store project_dir model_server projects))
  end.

(** ** The server as a transition system

    The router together with the Deferreds that have not fired yet.  A
    request is served, or a job finishes and its Deferred is fired on the
    reactor thread; between two such events the system is quiescent. *)
Record System : Type := mkSystem {
  DEFERRED_RUN_IN_REACTOR_THREAD : bool;
  router : DataRouter;
  in_flight : list Deferred;
}.

Inductive Event : Type :=
  | TrainRequest (data_file project : string)
      (train_config : RasaNLUModelConfig) (model_name : option string)
  | EvaluateRequest (data : string) (project model : option string)
  | TrainingDone (i : nat) (future : Future string)
  | EvaluationDone (i : nat) (future : Future EvaluationResult).

(** Serving a request: a raised exception is answered to the caller and
    nothing is submitted. *)
Definition serve (m : Py.M DataRouter Deferred) (s : System) : System :=
  match m (router s) with
  | (self, inr d) =>
      mkSystem (DEFERRED_RUN_IN_REACTOR_THREAD s) self (in_flight s ++ [d])
  | (self, inl _) =>
      mkSystem (DEFERRED_RUN_IN_REACTOR_THREAD s) self (in_flight s)
  end.

(** Firing a Deferred with everything the bridge delivers for [future]. *)
Definition fire {V} (cb : V -> Py.M DataRouter V)
    (eb : Failure -> Py.M DataRouter Failure) (flag : bool)
    (future : Future V) (self : DataRouter) : DataRouter :=
  fold_left (fun self o => fst (run_callbacks cb eb o self))
            (deferred_from_future flag future) self.

(** One event; [None] when no in-flight Deferred of that kind sits at
    index [i]. *)
Definition step (s : System) (ev : Event) : option System :=
  match ev with
  | TrainRequest data_file project train_config model_name =>
      Some (serve (start_train_process data_file project train_config
                     model_name) s)
  | EvaluateRequest data project model =>
      Some (serve (evaluate data project model) s)
  | TrainingDone i future =>
      match in_flight s !! i with
      | Some (mkDeferred _ (TrainingHandlers project)) =>
          Some (mkSystem (DEFERRED_RUN_IN_REACTOR_THREAD s)
                  (fire (training_callback project)
                        (training_errback project)
                        (DEFERRED_RUN_IN_REACTOR_THREAD s) future
                        (router s))
                  (delete i (in_flight s)))
      | _ => None
      end
  | EvaluationDone i future =>
      match in_flight s !! i with
      | Some (mkDeferred _ (EvaluationHandlers project)) =>
          Some (mkSystem (DEFERRED_RUN_IN_REACTOR_THREAD s)
                  (fire (evaluation_callback project)
                        (evaluation_errback project)
                        (DEFERRED_RUN_IN_REACTOR_THREAD s) future
                        (router s))
                  (delete i (in_flight s)))
      | _ => None
      end
  end.

Fixpoint run (s : System) (evs : list Event) : option System :=
  match evs with
  | [] => Some s
  | ev :: evs' =>
      match step s ev with
      | Some s' => run s' evs'
      | None => None
      end
  end.

(** The system right after a successful [DataRouter.__init__]. *)
Definition started (s : System) : Prop :=
  in_flight s = [] /\
  exists project_dir max_worker_processes emulation_mode model_server
         projects,
    DataRouter_init project_dir max_worker_processes emulation_mode
      model_server projects = inr (router s).

Definition reachable (s : System) : Prop :=
  exists s0 evs, started s0 /\ run s0 evs = Some s.

(** The in-flight counters of all projects, added up. *)
Definition sum_project_counters (store : gmap string Project) : Z :=
  map_fold (fun _ p acc => current_worker_processes p + acc) 0 store.

(** Is a Deferred attached to a job of [project]? *)
Definition owner (d : Deferred) : string :=
  match handlers d with
  | TrainingHandlers project => project
  | EvaluationHandlers project => project
  end.
End Server.

(** ** A concrete environment

    One choice of the external constants and helpers, on which the router
    can be run. *)
Definition demo_externals : Externals := {|
  RasaNLUModelConfig := unit;
  EvaluationResult := string;
  DEFAULT_PROJECT_NAME := "default";
  FALLBACK_MODEL_NAME := "fallback";
  _dynamic_load_model := fun p _ =>
    match _models p with m :: _ => m | [] => "fallback" end;
  _search_for_models := fun _ => [];
  path_join := fun a b => a ++ "/" ++ b;
  basename_normpath := fun s => s;
  create_temporary_file := fun _ suffix => "/tmp/data" ++ suffix;
  getBriefTraceback := fun _ => "Traceback: <exception caught here>";
|}.

Definition demo_config : @RasaNLUModelConfig demo_externals := tt.

(** A router with room for two workers and the single project ["A"]. *)
Definition demo_started : @System demo_externals :=
  mkSystem true
    (mkDataRouter 2 0 "projects" NoEmulator
       (@_create_project_store demo_externals "projects" false ["A"]))
    [].

(** Two trainings of ["A"] are admitted and the first one fails. *)
Definition one_failed_one_running : list (@Event demo_externals) :=
  [ TrainRequest "data.md" "A" demo_config None;
    TrainRequest "data.md" "A" demo_config None;
    TrainingDone 0 (Raised (WorkerError "training failed")) ].

(** A training of ["A"] fails and ["A"] is then trained again. *)
Definition failed_then_retrained : list (@Event demo_externals) :=
  [ TrainRequest "data.md" "A" demo_config None;
    TrainingDone 0 (Raised (WorkerError "training failed"));
    TrainRequest "data.md" "A" demo_config None ].

(** A saturated router: one worker, one job in flight for ["A"]. *)
Definition demo_saturated : DataRouter :=
  mkDataRouter 1 1 "projects" NoEmulator
    {[ "A" := mkProject STATUS_TRAINING 1 None [] "projects/A" ]}.

(** A router with two jobs of ["A"] in flight. *)
Definition demo_busy (st : Status) (msg : option string) : DataRouter :=
  mkDataRouter 2 2 "projects" NoEmulator
    {[ "A" := mkProject st 2 msg ["model_0"] "projects/A" ]}.

(** A router whose only job in flight belongs to ["A"]. *)
Definition demo_last (st : Status) (msg : option string) : DataRouter :=
  mkDataRouter 2 1 "projects" NoEmulator
    {[ "A" := mkProject st 1 msg ["model_0"] "projects/A" ]}.


(** The system [evs] leads to from [demo_started]. *)
Definition demo_after (evs : list (@Event demo_externals))
  : @System demo_externals :=
  default demo_started (@run demo_externals demo_started evs).

(** The record of ["A"] after one of its two trainings failed. *)
Definition demo_failed_record : Project :=
  mkProject STATUS_FAILED 1
    (Some "[Failure instance: Traceback: <exception caught here>]")
    [] "projects/A".

(** A router with a single worker, as [DataRouter.__init__] leaves it. *)
Definition demo_single : @System demo_externals :=
  mkSystem false
    (mkDataRouter 1 0 "projects" NoEmulator
       (@_create_project_store demo_externals "projects" false ["A"]))
    [].

(** A training of ["A"] is admitted, a training of ["B"] is requested
    meanwhile, and the training of ["A"] succeeds. *)
Definition single_worker_scenario : list (@Event demo_externals) :=
  [ TrainRequest "data.md" "A" demo_config None;
    TrainRequest "data.md" "B" demo_config None;
    TrainingDone 0 (Returned "projects/A/model_1") ].
(** ** Vocabulary of the properties *)

(** The modes [_create_emulator] accepts: the absent mode, and every name
    whose lower-case form is one of the three emulator names. *)
Definition accepted_mode (mode : option string) : bool :=
  match mode with
  | None => true
  | Some m => bool_decide (lower m ∈ ["wit"; "luis"; "dialogflow"])
  end.

(** The specification of emulator selection read literally: membership in the
    enumeration decides success. *)
Definition selection_follows_enumeration : Prop :=
  forall mode : option string,
    (mode ∈ mode_enumeration -> succeeds (_create_emulator mode)) /\
    (mode ∉ mode_enumeration -> fails_with_ValueError (_create_emulator mode)).


Section Vocabulary.
Context `{Externals}.

(** The router once a job of [project] has been accounted as finished,
    the project's record having become [p']. *)
Definition finished (self : DataRouter) (project : string) (p' : Project)
  : DataRouter :=
  mkDataRouter (_worker_processes self) (_current_worker_processes self - 1)
    (project_dir self) (emulator self)
    (<[project := p']> (project_store self)).

(** The router once a job of [project] has been admitted. *)
Definition admitted (self : DataRouter) (project : string) (p' : Project)
  : DataRouter :=
  mkDataRouter (_worker_processes self) (_current_worker_processes self + 1)
    (project_dir self) (emulator self)
    (<[project := p']> (project_store self)).

(** A project's record after one of its trainings succeeded. *)
Definition after_training_success (model_dir : string) (p : Project)
  : Project :=
  let p1 :=
    set_current_worker_processes (current_worker_processes p - 1)
      (update model_dir p) in
  if bool_decide (status p1 = STATUS_TRAINING)
     && (current_worker_processes p1 =? 0)%Z
  then set_status STATUS_READY p1
  else p1.

(** A project's record after one of its trainings failed. *)
Definition after_training_failure (failure : Failure) (p : Project)
  : Project :=
  mkProject STATUS_FAILED (current_worker_processes p - 1)
    (Some (str_Failure failure)) (_models p) (_path p).

(** A project's record after one of its evaluations finished. *)
Definition after_evaluation (p : Project) : Project :=
  set_current_worker_processes (current_worker_processes p - 1) p.

(** A project's record after a training of it was admitted. *)
Definition after_train_admission (p : Project) : Project :=
  mkProject STATUS_TRAINING (current_worker_processes p + 1)
    (error_message p) (_models p) (_path p).

(** A project's record after an evaluation of it was admitted. *)
Definition after_evaluate_admission (p : Project) : Project :=
  set_current_worker_processes (current_worker_processes p + 1) p.
End Vocabulary.

(** [self'] differs from [self] in nothing but the global counter and the
    in-flight counter of [project], each one less. *)
Definition only_counters_decremented (project : string)
    (self self' : DataRouter) : Prop :=
  _worker_processes self' = _worker_processes self
  /\ project_dir self' = project_dir self
  /\ emulator self' = emulator self
  /\ _current_worker_processes self' = _current_worker_processes self - 1
  /\ (forall other, other <> project ->
        project_store self' !! other = project_store self !! other)
  /\ exists p p',
       project_store self !! project = Some p
       /\ project_store self' !! project = Some p'
       /\ status p' = status p
       /\ error_message p' = error_message p
       /\ _models p' = _models p
       /\ _path p' = _path p
       /\ current_worker_processes p' = current_worker_processes p - 1.

Section Statements.
Context `{Externals}.

(** The specification of a succeeding training read literally: whenever the
    success callback of a training fires in a reachable system and leaves
    the project with no job in flight, the project is READY. *)
Definition ready_whenever_last : Prop :=
  forall (s s' : System) (i : nat) (path project : string) (j : Submission)
         (p' : Project),
    reachable s ->
    in_flight s !! i = Some (mkDeferred j (TrainingHandlers project)) ->
    step s (TrainingDone i (Returned path)) = Some s' ->
    project_store (router s') !! project = Some p' ->
    current_worker_processes p' = 0 ->
    status p' = STATUS_READY.

(** The specification of error messages read literally: in every reachable
    system a project has an error message exactly when it is FAILED. *)
Definition error_message_iff_failed : Prop :=
  forall (s : System) (project : string) (p : Project),
    reachable s ->
    project_store (router s) !! project = Some p ->
    (is_Some (error_message p) <-> status p = STATUS_FAILED).

(** What holds between any two events of the server. *)
Record Inv (s : System) : Prop := mkInv {
  Inv_global :
    _current_worker_processes (router s)
    = Z.of_nat (List.length (in_flight s));
  Inv_capacity :
    _current_worker_processes (router s) <= _worker_processes (router s);
  Inv_owner : forall d, d ∈ in_flight s ->
    is_Some (project_store (router s) !! owner d);
  Inv_sum :
    sum_project_counters (project_store (router s))
    = _current_worker_processes (router s);
  Inv_message : forall project p,
    project_store (router s) !! project = Some p ->
    status p = STATUS_FAILED -> is_Some (error_message p);
}.
End Statements.


(** ** Further operations of the router *)

(** [try: m except KeyError: handler], and [try: m except Exception as e:
    handler(e)]; the state reached when the exception was raised is kept. *)
Definition except_KeyError {S A} (m handler : Py.M S A) : Py.M S A :=
  fun s =>
    match m s with
    | (s', inl (KeyError _)) => handler s'
    | r => r
    end.

Definition except_Exception {S A} (m : Py.M S A)
    (handler : Exception -> Py.M S A) : Py.M S A :=
  fun s =>
    match m s with
    | (s', inl e) => handler e s'
    | r => r
    end.

Section Unload.
Context {Unloaded : Type}.

(** [Project.unload] is not among the sources and is taken as a parameter:
  it may change the record and returns a summary or raises. *)
Variable unload : Project -> string -> Project * (Exception + Unloaded).

(** [self.project_store[project].unload(model)] *)
Definition call_unload (project model : string) : Py.M DataRouter Unloaded :=
p <~ getitem project ;;
fun self =>
  let '(p', r) := unload p model in
  (set_project_store (<[project := p']> (project_store self)) self, r).

Definition unload_model (project : option string) (model : string)
: Py.M DataRouter Unloaded :=
match project with
| None => Py.raise (InvalidProjectError "No project specified")
| Some project =>
    self <~ Py.get ;;
    if bool_decide (project_store self !! project = None)
    then Py.raise (InvalidProjectError
                     ("Project " ++ project ++ " could not be found"))
    else
      except_KeyError
        (unloaded_model <~ call_unload project model ;;
         Py.ret unloaded_model)
        (Py.raise (InvalidProjectError
                     ("Failed to unload model " ++ model
                        ++ " for project " ++ project ++ ".")))
end.
End Unload.

(** What [parse] uses but the router does not define. *)
Class ParseServices : Type := {
  Response : Type;
  Persistor : Type;
  list_subdirectories : string -> list string;
  basename : string -> string;
  get_persistor : Exception + option Persistor;
  list_projects : Persistor -> Exception + list string;
  Project_raises : string -> string -> option Exception;
  Project_parse :
    Project -> option string -> option string -> option string
    -> Project * (Exception + Response);
  response_get_model : Response -> option string;
  normalise_request_json :
    Emulator -> gmap string (option string) -> gmap string (option string);
  normalise_response_json : Emulator -> Response -> Response;
  str_Exception : Exception -> string;
}.

Section Parse.
Context `{Externals} `{ParseServices}.

(** One record of the query log: the keyword arguments of
  [self.responses.info]. *)
Record QueryRecord : Type := mkQueryRecord {
user_input : Response;
logged_project : string;
logged_model : option string;
}.

(** The router together with its query logger [self.responses], which is
  [None] when no log directory was configured. *)
Record Service : Type := mkService {
service_router : DataRouter;
responses : option (list QueryRecord);
}.

Definition _list_projects (path : string) : list string :=
map basename (list_subdirectories path).

(** Any exception of the persistor is logged and answered by the empty
  list. *)
Definition _list_projects_in_cloud : list string :=
match get_persistor with
| inl _ => []
| inr None => []
| inr (Some p) =>
    match list_projects p with
    | inl _ => []
    | inr projects => projects
    end
end.

Definition extract (data : gmap string (option string)) (self : DataRouter)
: gmap string (option string) :=
normalise_request_json (emulator self) data.

Definition format_response (data : Response) (self : DataRouter) : Response :=
normalise_response_json (emulator self) data.

(** The first half of [parse]: the project is registered, or is found
  among the listed projects and registered now. *)
Definition resolve_project (project : string) : Py.M DataRouter unit :=
self <~ Py.get ;;
if bool_decide (project_store self !! project = None)
then
  let projects := _list_projects (project_dir self) in
  let cloud_provided_projects := _list_projects_in_cloud in
  let projects := (projects ++ cloud_provided_projects)%list in
  if bool_decide (project ∉ projects)
  then Py.raise (InvalidProjectError
                   ("No project found with name '" ++ project ++ "'."))
  else
    except_Exception
      (match Project_raises project (project_dir self) with
       | Some e => Py.raise e
       | None => setitem project (new_Project project (project_dir self))
       end)
      (fun e =>
         Py.raise (InvalidProjectError
                     ("Unable to load project '" ++ project
                        ++ "'. Error: " ++ str_Exception e)))
else Py.ret tt.

(** [self.project_store[project].parse(data["text"], time, model)]: the
  subscript of the store comes first, then the one of [data]. *)
Definition call_parse (data : gmap string (option string))
  (project : string) (time model : option string)
: Py.M DataRouter Response :=
p <~ getitem project ;;
match data !! "text" with
| None => Py.raise (KeyError "text")
| Some text =>
    fun self =>
      let '(p', r) := Project_parse p text time model in
      (set_project_store (<[project := p']> (project_store self)) self, r)
end.

(** [parse]: the values of [data] are texts or [None].  A [None] project is
  neither a key of the store nor a listed name. *)
Definition parse (data : gmap string (option string)) (s : Service)
: Service * (Exception + Response) :=
let project := default (Some DEFAULT_PROJECT_NAME) (data !! "project") in
let model : option string := mjoin (data !! "model") in
match project with
| None =>
    (s, inl (InvalidProjectError "No project found with name 'None'."))
| Some project =>
    let time : option string := mjoin (data !! "time") in
    match (resolve_project project ;;;
           call_parse data project time model) (service_router s) with
    | (self, inl e) => (mkService self (responses s), inl e)
    | (self, inr response) =>
        let responses :=
          match responses s with
          | Some log =>
              Some (log ++ [mkQueryRecord response project
                              (response_get_model response)])%list
          | None => None
          end in
        (mkService self responses, inr (format_response response self))
    end
end.
End Parse.


(** ** Counting the jobs in flight *)

Section Counting.
Context `{Externals}.

(** The number of in-flight Deferreds attached to jobs of [project]. *)
Definition count_owner (project : string) (ds : list Deferred) : nat :=
List.length (filter (fun d => owner d = project) ds).

Global Instance Handlers_eq_dec : EqDecision Handlers.
Proof. solve_decision. Defined.

(** The number of in-flight Deferreds attached to trainings of [project]. *)
Definition count_training (project : string) (ds : list Deferred) : nat :=
List.length (filter (fun d => handlers d = TrainingHandlers project) ds).

(** Every project's counter is the number of its jobs in flight, and a
  READY project has no training in flight. *)
Record Accounted (s : System) : Prop := mkAccounted {
Accounted_count : forall project p,
  project_store (router s) !! project = Some p ->
  current_worker_processes p
  = Z.of_nat (count_owner project (in_flight s));
Accounted_ready : forall project p,
  project_store (router s) !! project = Some p ->
  status p = STATUS_READY ->
  count_training project (in_flight s) = 0%nat;
}.

End Counting.

(** A training of the new project ["B"] is admitted while ["A"] is idle. *)
Definition training_of_B : list (@Event demo_externals) :=
  [ TrainRequest "data.md" "B" demo_config None ].


(** One choice of [Project.unload]: a loaded model is dropped and named, a
    model that is not loaded raises [KeyError]. *)
Definition demo_unload (p : Project) (model : string)
  : Project * (Exception + string) :=
  if bool_decide (model ∈ _models p)
  then (mkProject (status p) (current_worker_processes p) (error_message p)
          (filter (fun m => m <> model) (_models p)) (_path p),
        inr model)
  else (p, inl (KeyError model)).

(** One choice of the services [parse] relies on: the project directory
    holds ["A"] and ["C"], no cloud storage is configured, the project
    ["broken"] cannot be constructed, and a project answers a text with
    that text. *)
Definition demo_services : ParseServices := {|
  Response := string;
  Persistor := unit;
  list_subdirectories := fun _ => ["A"; "C"; "broken"];
  basename := fun fn => fn;
  get_persistor := inr None;
  list_projects := fun _ => inr [];
  Project_raises := fun name _ =>
    if bool_decide (name = "broken")
    then Some (WorkerError "no such directory")
    else None;
  Project_parse := fun p text _ _ => (p, inr (default "" text));
  response_get_model := fun _ => None;
  normalise_request_json := fun _ data => data;
  normalise_response_json := fun _ response => response;
  str_Exception := fun _ => "no such directory";
|}.

(** A service on the router [demo_last], with an empty query log. *)
Definition demo_service : @Service demo_services :=
  mkService (demo_last STATUS_READY None) (Some []).

(** An evaluation of ["A"] and a training of the new project ["B"],
    requested of a router with one free worker. *)
Definition demo_evaluation
  : DataRouter * (Exception + @Deferred demo_externals) :=
  @evaluate demo_externals "## intent:greet" (Some "A") None
    (demo_last STATUS_READY None).

Definition demo_evaluation_deferred : @Deferred demo_externals :=
  mkDeferred
    (run_evaluation "/tmp/data_training_data" "projects/A/model_0")
    (EvaluationHandlers "A").

Definition demo_training
  : DataRouter * (Exception + @Deferred demo_externals) :=
  @start_train_process demo_externals "data.md" "B" demo_config None
    (demo_last STATUS_READY None).

Definition demo_training_deferred : @Deferred demo_externals :=
  mkDeferred
    (do_train_in_worker demo_config "data.md" "projects" "B" None)
    (TrainingHandlers "B").

(** The record of ["A"] in [demo_started]. *)
Definition demo_idle_record : Project :=
  mkProject STATUS_READY 0 None [] "projects/A".

(** A parse request for the listed project ["C"] without text, one for the
    project ["broken"], and one for a project nobody lists. *)
Definition demo_request_C : gmap string (option string) :=
  {[ "project" := Some "C" ]}.

Definition demo_request_broken : gmap string (option string) :=
  {[ "project" := Some "broken"; "text" := Some "hello" ]}.

Definition demo_request_unlisted : gmap string (option string) :=
  {[ "project" := Some "nowhere"; "text" := Some "hello" ]}.

(** * Properties *)

(** ** Emulator selection *)

(** C10, counterexample: the mode name ["WIT"] is not in the enumeration
    {none, wit, luis, dialogflow}, yet selection succeeds for it, because
    names are compared after lower-casing. *)
Lemma create_emulator_upper_case_accepted :
  (Some "WIT" ∉ mode_enumeration) /\
  _create_emulator (Some "WIT") = inr WitEmulator /\
  ~ selection_follows_enumeration.
Proof.
  assert (Hout : Some "WIT" ∉ mode_enumeration).
  { unfold mode_enumeration. intros Hin.
    repeat (apply elem_of_cons in Hin; destruct Hin as [Heq | Hin];
            [discriminate Heq |]).
    by apply elem_of_nil in Hin. }
  split; [exact Hout |]. split; [reflexivity |].
  intros Hall. destruct (Hall (Some "WIT")) as [_ Hfail].
  exact (Hfail Hout).
Qed.

(** C10, amended: selection succeeds for the absent mode and for every mode
    name that lower-cases to wit, luis or dialogflow, and fails with
    [ValueError] for every other name. *)
Theorem create_emulator_accepts_modulo_case (mode : option string) :
  if accepted_mode mode
  then succeeds (_create_emulator mode)
  else fails_with_ValueError (_create_emulator mode).
Proof.
  destruct mode as [m |]; simpl; [| exact I].
  case_bool_decide as Hin.
  - repeat (apply elem_of_cons in Hin; destruct Hin as [Heq | Hin];
            [rewrite Heq; exact I |]).
    by apply elem_of_nil in Hin.
  - destruct (String.eqb_spec (lower m) "wit") as [E1 | _].
    { exfalso. apply Hin. rewrite E1. set_solver. }
    destruct (String.eqb_spec (lower m) "luis") as [E2 | _].
    { exfalso. apply Hin. rewrite E2. set_solver. }
    destruct (String.eqb_spec (lower m) "dialogflow") as [E3 | _].
    { exfalso. apply Hin. rewrite E3. set_solver. }
    exact I.
Qed.

(** ** The bridge *)

Lemma deferred_from_future_fires_once {V} (flag : bool) (future : Future V) :
  deferred_from_future flag future = [job_outcome future].
Proof. destruct future as [v | e], flag; reflexivity. Qed.

(** C5: the Deferred is fired exactly once, with the job's own outcome (the
    error when the job raised, the result otherwise), and the two settings
    of [DEFERRED_RUN_IN_REACTOR_THREAD] fire it alike. *)
Theorem deferred_from_future_delivers_outcome {V} (future : Future V) :
  (forall flag : bool, deferred_from_future flag future = [job_outcome future])
  /\ deferred_from_future true future = deferred_from_future false future.
Proof.
  split; [intros flag; apply deferred_from_future_fires_once |].
  by rewrite !deferred_from_future_fires_once.
Qed.

(** ** The completion callbacks *)

Section CallbackFacts.
Context `{Externals}.

Lemma setattr_present project f self p :
  project_store self !! project = Some p ->
  setattr project f self
  = (set_project_store (<[project := f p]> (project_store self)) self,
     inr tt).
Proof.
  intros Hp. unfold setattr, Py.bind, getitem. rewrite Hp. reflexivity.
Qed.

Lemma setattr_absent project f self :
  project_store self !! project = None ->
  setattr project f self = (self, inl (KeyError project)).
Proof.
  intros Hp. unfold setattr, Py.bind, getitem. rewrite Hp. reflexivity.
Qed.

Lemma getitem_present project self p :
  project_store self !! project = Some p ->
  getitem project self = (self, inr p).
Proof. intros Hp. unfold getitem. rewrite Hp. reflexivity. Qed.

Lemma training_callback_present project model_path self p :
  project_store self !! project = Some p ->
  training_callback project model_path self
  = (finished self project
       (after_training_success (basename_normpath model_path) p),
     inr model_path).
Proof.
  intros Hp. unfold training_callback, Py.bind at 1.
  rewrite (setattr_present _ _ _ _ Hp).
  unfold Py.bind at 1, Py.modify. unfold Py.bind at 1.
  erewrite setattr_present by (simpl; apply lookup_insert_eq).
  unfold Py.bind at 1.
  erewrite getitem_present by (simpl; apply lookup_insert_eq).
  unfold after_training_success, finished. simpl.
  destruct (bool_decide (status p = STATUS_TRAINING)
            && (current_worker_processes p - 1 =? 0)%Z) eqn:Hlast.
  - unfold Py.bind.
    erewrite setattr_present by (simpl; apply lookup_insert_eq).
    simpl. rewrite !insert_insert_eq. reflexivity.
  - unfold Py.bind, Py.ret. simpl. rewrite !insert_insert_eq. reflexivity.
Qed.

Lemma training_errback_present project failure self p :
  project_store self !! project = Some p ->
  training_errback project failure self
  = (finished self project (after_training_failure failure p), inr failure).
Proof.
  intros Hp. unfold training_errback, Py.bind at 1, Py.modify.
  unfold Py.bind at 1.
  erewrite setattr_present by (simpl; exact Hp).
  unfold Py.bind at 1.
  erewrite setattr_present by (simpl; apply lookup_insert_eq).
  unfold Py.bind at 1.
  erewrite setattr_present by (simpl; apply lookup_insert_eq).
  unfold finished, after_training_failure, Py.ret. simpl.
  rewrite !insert_insert_eq. reflexivity.
Qed.

Lemma training_errback_absent project failure self :
  project_store self !! project = None ->
  training_errback project failure self
  = (set_current (_current_worker_processes self - 1) self,
     inl (KeyError project)).
Proof.
  intros Hp. unfold training_errback, Py.bind at 1, Py.modify.
  unfold Py.bind at 1.
  rewrite setattr_absent by (simpl; exact Hp). reflexivity.
Qed.

Lemma evaluation_callback_present project result self p :
  project_store self !! project = Some p ->
  evaluation_callback project result self
  = (finished self project (after_evaluation p), inr result).
Proof.
  intros Hp. unfold evaluation_callback, Py.bind at 1, Py.modify.
  unfold Py.bind at 1.
  erewrite setattr_present by (simpl; exact Hp). reflexivity.
Qed.

Lemma evaluation_errback_present project failure self p :
  project_store self !! project = Some p ->
  evaluation_errback project failure self
  = (finished self project (after_evaluation p), inr failure).
Proof.
  intros Hp. unfold evaluation_errback, Py.bind at 1, Py.modify.
  unfold Py.bind at 1.
  erewrite setattr_present by (simpl; exact Hp). reflexivity.
Qed.

(** The record [start_train_process] starts from: the registered one, or
    a newly constructed one. *)
Lemma start_train_process_admitted data_file project train_config
    model_name self :
  project <> "" ->
  _current_worker_processes self < _worker_processes self ->
  start_train_process data_file project train_config model_name self
  = (admitted self project
       (after_train_admission
          (default (new_Project project (project_dir self))
                   (project_store self !! project))),
     inr (mkDeferred
            (do_train_in_worker train_config data_file (project_dir self)
               project model_name)
            (TrainingHandlers project))).
Proof.
  intros Hne Hroom. unfold start_train_process.
  rewrite bool_decide_eq_false_2 by exact Hne.
  unfold Py.bind at 1, Py.get.
  destruct (Z.leb_spec (_worker_processes self)
              (_current_worker_processes self)) as [Hfull | _]; [lia |].
  unfold Py.bind at 1.
  destruct (project_store self !! project) as [p |] eqn:Hp.
  - rewrite bool_decide_eq_true_2 by eauto.
    rewrite (setattr_present _ _ _ _ Hp).
    unfold Py.bind at 1, Py.modify. unfold Py.bind at 1.
    erewrite setattr_present by (simpl; apply lookup_insert_eq).
    unfold Py.bind, Py.get, Py.ret, admitted, after_train_admission. simpl.
    rewrite !insert_insert_eq. reflexivity.
  - rewrite bool_decide_eq_false_2 by (intros [? ?]; discriminate).
    unfold Py.bind at 1, setitem, Py.modify.
    erewrite setattr_present by (simpl; apply lookup_insert_eq).
    unfold Py.bind at 1. unfold Py.bind at 1.
    erewrite setattr_present by (simpl; apply lookup_insert_eq).
    unfold Py.bind, Py.get, Py.ret, admitted, after_train_admission. simpl.
    rewrite !insert_insert_eq. reflexivity.
Qed.

Lemma start_train_process_full data_file project train_config model_name
    self :
  project <> "" ->
  _worker_processes self <= _current_worker_processes self ->
  start_train_process data_file project train_config model_name self
  = (self, inl MaxWorkerProcessError).
Proof.
  intros Hne Hfull. unfold start_train_process.
  rewrite bool_decide_eq_false_2 by exact Hne.
  unfold Py.bind, Py.get, Py.raise.
  destruct (Z.leb_spec (_worker_processes self)
              (_current_worker_processes self)); [reflexivity | lia].
Qed.

Lemma start_train_process_unnamed data_file train_config model_name self :
  start_train_process data_file "" train_config model_name self
  = (self, inl (InvalidProjectError "Missing project name to train")).
Proof. reflexivity. Qed.

Lemma evaluate_full data project model self :
  _worker_processes self <= _current_worker_processes self ->
  evaluate data project model self = (self, inl MaxWorkerProcessError).
Proof.
  intros Hfull. unfold evaluate, Py.bind, Py.get, Py.raise.
  destruct (Z.leb_spec (_worker_processes self)
              (_current_worker_processes self)); [reflexivity | lia].
Qed.

Lemma evaluate_admitted data project model self p :
  let name := py_or project DEFAULT_PROJECT_NAME in
  let chosen := py_or model (_dynamic_load_model p model) in
  _current_worker_processes self < _worker_processes self ->
  project_store self !! name = Some p ->
  chosen <> FALLBACK_MODEL_NAME ->
  evaluate data project model self
  = (admitted self name (after_evaluate_admission p),
     inr (mkDeferred
            (run_evaluation (create_temporary_file data "_training_data")
               (path_join (_path p) chosen))
            (EvaluationHandlers name))).
Proof.
  intros name chosen Hroom Hp Hmodel.
  unfold evaluate, Py.bind at 1, Py.get.
  destruct (Z.leb_spec (_worker_processes self)
              (_current_worker_processes self)) as [Hfull | _]; [lia |].
  fold name. rewrite bool_decide_eq_false_2 by (rewrite Hp; discriminate).
  unfold Py.bind at 1. rewrite (getitem_present _ _ _ Hp).
  fold chosen. rewrite bool_decide_eq_false_2 by exact Hmodel.
  unfold Py.bind at 1, Py.modify. unfold Py.bind at 1.
  erewrite setattr_present by (simpl; exact Hp).
  reflexivity.
Qed.

Lemma evaluate_rejected data project model self :
  let name := py_or project DEFAULT_PROJECT_NAME in
  (_worker_processes self <= _current_worker_processes self
   \/ project_store self !! name = None
   \/ exists p, project_store self !! name = Some p
                /\ py_or model (_dynamic_load_model p model)
                   = FALLBACK_MODEL_NAME) ->
  exists e, evaluate data project model self = (self, inl e).
Proof.
  intros name Hcases.
  unfold evaluate, Py.bind at 1, Py.get.
  destruct (Z.leb_spec (_worker_processes self)
              (_current_worker_processes self)) as [Hfull | Hroom].
  { eexists. reflexivity. }
  fold name. destruct Hcases as [Hfull | [Hnone | (p & Hp & Hmodel)]].
  - lia.
  - rewrite bool_decide_eq_true_2 by exact Hnone. eexists. reflexivity.
  - rewrite bool_decide_eq_false_2 by (rewrite Hp; discriminate).
    unfold Py.bind at 1. rewrite (getitem_present _ _ _ Hp).
    rewrite bool_decide_eq_true_2 by exact Hmodel. eexists. reflexivity.
Qed.

(** [evaluate] either raises and leaves the router as it was, or admits a
    job of a registered project. *)
Lemma evaluate_cases data project model self :
  let name := py_or project DEFAULT_PROJECT_NAME in
  (exists e, evaluate data project model self = (self, inl e))
  \/ (exists p d,
        _current_worker_processes self < _worker_processes self
        /\ project_store self !! name = Some p
        /\ handlers d = EvaluationHandlers name
        /\ evaluate data project model self
           = (admitted self name (after_evaluate_admission p), inr d)).
Proof.
  intros name.
  destruct (Z.le_gt_cases (_worker_processes self)
              (_current_worker_processes self)) as [Hfull | Hroom].
  { left. apply evaluate_rejected. by left. }
  destruct (project_store self !! name) as [p |] eqn:Hp.
  2: { left. apply evaluate_rejected. right. by left. }
  destruct (decide (py_or model (_dynamic_load_model p model)
                    = FALLBACK_MODEL_NAME)) as [Hmodel | Hmodel].
  { left. apply evaluate_rejected. right. right. by exists p. }
  right. exists p. eexists. split; [lia |]. split; [reflexivity |].
  split; [| apply evaluate_admitted; [lia | exact Hp | exact Hmodel]].
  reflexivity.
Qed.
End CallbackFacts.

Section CallbackProperties.
Context `{Externals}.

(** C1: a named training request that finds the router at capacity
    raises [MaxWorkerProcessError] and leaves the router exactly as it
    was: no counter moves, no record is created, no status changes. *)
Theorem start_train_process_rejects_at_capacity data_file project
    train_config model_name self :
  project <> "" ->
  _worker_processes self <= _current_worker_processes self ->
  start_train_process data_file project train_config model_name self
  = (self, inl MaxWorkerProcessError).
Proof.
  intros Hne Hfull. unfold start_train_process.
  case_bool_decide as Hempty; [contradiction |].
  unfold Py.bind, Py.get, Py.raise.
  destruct (Z.leb_spec (_worker_processes self)
              (_current_worker_processes self)) as [_ | Hroom].
  - reflexivity.
  - lia.
Qed.

(** C9: an evaluation request that finds the router at capacity raises
    [MaxWorkerProcessError] whatever the project and model arguments are,
    registered or not, and leaves the router exactly as it was. *)
Theorem evaluate_rejects_at_capacity_first data project model self :
  _worker_processes self <= _current_worker_processes self ->
  evaluate data project model self = (self, inl MaxWorkerProcessError).
Proof.
  intros Hfull. unfold evaluate, Py.bind, Py.get.
  destruct (Z.leb_spec (_worker_processes self)
              (_current_worker_processes self)) as [_ | Hroom].
  - reflexivity.
  - lia.
Qed.

(** C3, amended: when a training's success callback runs on a project whose
    status is TRAINING and the decrement brings its in-flight count to 0,
    the status becomes READY; when the count is not 0 after the decrement
    the status is left as it was, so TRAINING remains TRAINING. *)
Theorem training_callback_ready_when_last project model_path self p :
  project_store self !! project = Some p ->
  exists self' p',
    training_callback project model_path self = (self', inr model_path)
    /\ project_store self' !! project = Some p'
    /\ current_worker_processes p' = current_worker_processes p - 1
    /\ (status p = STATUS_TRAINING -> current_worker_processes p' = 0 ->
        status p' = STATUS_READY)
    /\ (current_worker_processes p' <> 0 -> status p' = status p).
Proof.
  intros Hp. eexists _, _.
  split; [by apply training_callback_present |].
  split; [apply lookup_insert_eq |].
  unfold after_training_success. simpl.
  destruct (Z.eqb_spec (current_worker_processes p - 1) 0) as [H0 | H0];
    case_bool_decide as Hst; simpl;
    repeat split; try done; try lia.
Qed.

(** C8: a training that succeeds as the last job in flight of a project
    whose status is FAILED leaves the status FAILED; the success callback
    moves a project to READY only from TRAINING and only when its count has
    reached 0. *)
Theorem training_callback_keeps_failed project model_path self p :
  project_store self !! project = Some p ->
  exists self' p',
    training_callback project model_path self = (self', inr model_path)
    /\ project_store self' !! project = Some p'
    /\ (status p = STATUS_FAILED -> status p' = STATUS_FAILED)
    /\ (status p' = STATUS_READY -> status p <> STATUS_READY ->
        status p = STATUS_TRAINING
        /\ current_worker_processes p - 1 = 0).
Proof.
  intros Hp. eexists _, _.
  split; [by apply training_callback_present |].
  split; [apply lookup_insert_eq |].
  unfold after_training_success. simpl.
  destruct (Z.eqb_spec (current_worker_processes p - 1) 0) as [H0 | H0];
    case_bool_decide as Hst; simpl; (split; [congruence |]);
    intros Hready Hnot; try done; congruence.
Qed.

(** C4: a training's failure callback always succeeds in marking the
    project FAILED with a non-empty error message, whatever its in-flight
    count, and takes one off the global and the project's counters. *)
Theorem training_errback_marks_failed project failure self p :
  project_store self !! project = Some p ->
  exists self' p' message,
    training_errback project failure self = (self', inr failure)
    /\ _current_worker_processes self' = _current_worker_processes self - 1
    /\ project_store self' !! project = Some p'
    /\ current_worker_processes p' = current_worker_processes p - 1
    /\ status p' = STATUS_FAILED
    /\ error_message p' = Some message
    /\ message <> "".
Proof.
  intros Hp. eexists _, _, _.
  split; [by apply training_errback_present |].
  split; [reflexivity |].
  split; [apply lookup_insert_eq |].
  repeat split. discriminate.
Qed.

(** C7: the completion callback of an evaluation, on success and on
    failure alike, passes its argument on and changes nothing but the
    global counter and the owning project's in-flight counter, each one
    less; status and error message stay as they were. *)
Theorem evaluation_completion_only_decrements project self p
    (result : EvaluationResult) (failure : Failure) :
  project_store self !! project = Some p ->
  (exists self',
      evaluation_callback project result self = (self', inr result)
      /\ only_counters_decremented project self self')
  /\ (exists self',
        evaluation_errback project failure self = (self', inr failure)
        /\ only_counters_decremented project self self').
Proof.
  intros Hp.
  assert (Hframe : only_counters_decremented project self
                     (finished self project (after_evaluation p))).
  { unfold only_counters_decremented, finished. simpl.
    repeat (split; [reflexivity |]).
    split; [intros other Hother; by apply lookup_insert_ne |].
    exists p, (after_evaluation p).
    split; [exact Hp |]. split; [apply lookup_insert_eq |].
    repeat split. }
  split; eexists; (split; [| exact Hframe]).
  - by apply evaluation_callback_present.
  - by apply evaluation_errback_present.
Qed.
End CallbackProperties.

(** ** Invariants of the server *)

Section Counters.
Context `{Externals}.

Lemma sum_project_counters_empty : sum_project_counters ∅ = 0.
Proof. unfold sum_project_counters. apply map_fold_empty. Qed.

Lemma sum_project_counters_insert_absent store project p :
  store !! project = None ->
  sum_project_counters (<[project := p]> store)
  = current_worker_processes p + sum_project_counters store.
Proof.
  intros Hnone. unfold sum_project_counters.
  rewrite map_fold_insert_L; [reflexivity | | exact Hnone].
  intros. lia.
Qed.

Lemma sum_project_counters_insert_present store project p p' :
  store !! project = Some p ->
  sum_project_counters (<[project := p']> store)
  = sum_project_counters store - current_worker_processes p
    + current_worker_processes p'.
Proof.
  intros Hp.
  rewrite <- (insert_delete_id store project p Hp) at 2.
  rewrite <- (insert_delete_eq store project p').
  rewrite !sum_project_counters_insert_absent by apply lookup_delete_eq.
  lia.
Qed.

Lemma sum_project_counters_idle store :
  (forall project p, store !! project = Some p ->
                     current_worker_processes p = 0) ->
  sum_project_counters store = 0.
Proof.
  induction store as [| project p store Hnone IH] using map_ind.
  - intros _. apply sum_project_counters_empty.
  - intros Hidle.
    rewrite sum_project_counters_insert_absent by exact Hnone.
    rewrite (Hidle project p) by apply lookup_insert_eq.
    rewrite IH; [reflexivity |].
    intros k q Hk. apply (Hidle k q).
    rewrite lookup_insert_ne; [exact Hk |].
    intros ->. rewrite Hnone in Hk. discriminate.
Qed.

(** Every record of a new project store is newly constructed. *)
Lemma _create_project_store_new project_dir model_server projects name p :
  _create_project_store project_dir model_server projects !! name = Some p ->
  p = new_Project name project_dir.
Proof.
  unfold _create_project_store.
  assert (Hfold : forall store : gmap string Project,
    (forall k q, store !! k = Some q -> q = new_Project k project_dir) ->
    forall k q,
      fold_left (fun store project =>
                   <[project := new_Project project project_dir]> store)
                projects store !! k = Some q ->
      q = new_Project k project_dir).
  { induction projects as [| x xs IH]; intros store Hstore k q; simpl.
    - apply Hstore.
    - apply IH. intros k' q'. rewrite lookup_insert.
      case_decide as Hk; [| apply Hstore].
      intros [= <-]. by subst. }
  assert (Hone : forall k q,
    ({[ DEFAULT_PROJECT_NAME
        := new_Project DEFAULT_PROJECT_NAME project_dir ]}
      : gmap string Project) !! k = Some q ->
    q = new_Project k project_dir).
  { intros k q. rewrite lookup_singleton.
    case_decide as Hk; [| discriminate]. intros [= <-]. by subst. }
  destruct model_server; [apply Hone |].
  case_bool_decide; [apply Hone |].
  apply Hfold. intros k q. rewrite lookup_empty. discriminate.
Qed.
End Counters.

Section ServerInvariant.
Context `{Externals}.

Lemma Inv_started (s : System) : started s -> Inv s.
Proof.
  intros [Hnone (dir & n & mode & server & projects & Hinit)].
  unfold DataRouter_init in Hinit.
  destruct (_create_emulator mode) as [e | em]; [discriminate |].
  injection Hinit as Hrouter.
  assert (Hnew : forall project p,
             project_store (router s) !! project = Some p ->
             p = new_Project project dir).
  { rewrite <- Hrouter. simpl. intros project p.
    apply _create_project_store_new. }
  split.
  - rewrite Hnone, <- Hrouter. reflexivity.
  - rewrite <- Hrouter. simpl. lia.
  - rewrite Hnone. intros d Hd. by apply elem_of_nil in Hd.
  - rewrite sum_project_counters_idle.
    + rewrite <- Hrouter. reflexivity.
    + intros project p Hp. by rewrite (Hnew _ _ Hp).
  - intros project p Hp. rewrite (Hnew _ _ Hp). discriminate.
Qed.

(** Accounting a job of a registered project as finished. *)
Lemma Inv_finished (s : System) i d p p' :
  Inv s ->
  in_flight s !! i = Some d ->
  project_store (router s) !! owner d = Some p ->
  current_worker_processes p' = current_worker_processes p - 1 ->
  (status p' = STATUS_FAILED -> is_Some (error_message p')) ->
  Inv (mkSystem (DEFERRED_RUN_IN_REACTOR_THREAD s)
         (finished (router s) (owner d) p') (delete i (in_flight s))).
Proof.
  intros [Hglobal Hcap Howner Hsum Hmsg] Hi Hp Hcount Hfailed.
  assert (Hlen : (i < List.length (in_flight s))%nat)
    by (eapply lookup_lt_Some; exact Hi).
  split; simpl.
  - rewrite length_delete by eauto. lia.
  - lia.
  - intros d' Hd'. apply list_elem_of_delete_inv in Hd'.
    rewrite lookup_insert. case_decide; [eauto | by apply Howner].
  - rewrite (sum_project_counters_insert_present _ _ p) by exact Hp. lia.
  - intros project q. rewrite lookup_insert.
    case_decide; [intros [= <-]; exact Hfailed | apply Hmsg].
Qed.

(** Admitting a job of [project], registered or newly constructed. *)
Lemma Inv_admitted (s : System) project d p p' :
  Inv s ->
  _current_worker_processes (router s) < _worker_processes (router s) ->
  owner d = project ->
  (project_store (router s) !! project = Some p
   \/ (project_store (router s) !! project = None
       /\ current_worker_processes p = 0)) ->
  current_worker_processes p' = current_worker_processes p + 1 ->
  (status p' = STATUS_FAILED -> is_Some (error_message p')) ->
  Inv (mkSystem (DEFERRED_RUN_IN_REACTOR_THREAD s)
         (admitted (router s) project p') (in_flight s ++ [d])).
Proof.
  intros [Hglobal Hcap Howner Hsum Hmsg] Hroom Hd Hp Hcount Hfailed.
  split; simpl.
  - rewrite length_app. simpl. lia.
  - lia.
  - intros d' Hd'. rewrite lookup_insert.
    case_decide; [eauto |].
    apply elem_of_app in Hd'. destruct Hd' as [Hold | Hnew].
    + by apply Howner.
    + apply list_elem_of_singleton in Hnew. congruence.
  - destruct Hp as [Hp | [Hp Hzero]].
    + rewrite (sum_project_counters_insert_present _ _ p) by exact Hp. lia.
    + rewrite sum_project_counters_insert_absent by exact Hp. lia.
  - intros k q. rewrite lookup_insert.
    case_decide; [intros [= <-]; exact Hfailed | apply Hmsg].
Qed.

Lemma fire_once {V} (cb : V -> Py.M DataRouter V)
    (eb : Failure -> Py.M DataRouter Failure) flag future self :
  fire cb eb flag future self
  = fst (run_callbacks cb eb (job_outcome future) self).
Proof. unfold fire. by rewrite deferred_from_future_fires_once. Qed.

Lemma fire_training project flag future self p :
  project_store self !! project = Some p ->
  fire (training_callback project) (training_errback project) flag future
       self
  = finished self project
      match future with
      | Returned path =>
          after_training_success (basename_normpath path) p
      | Raised e => after_training_failure (mkFailure e) p
      end.
Proof.
  intros Hp. rewrite fire_once. destruct future as [path | e].
  - unfold run_callbacks. simpl.
    by rewrite (training_callback_present _ _ _ _ Hp).
  - unfold run_callbacks. simpl.
    by rewrite (training_errback_present _ _ _ _ Hp).
Qed.

Lemma fire_evaluation project flag future self p :
  project_store self !! project = Some p ->
  fire (evaluation_callback project) (evaluation_errback project) flag
       future self
  = finished self project (after_evaluation p).
Proof.
  intros Hp. rewrite fire_once. destruct future as [v | e].
  - unfold run_callbacks. simpl.
    by rewrite (evaluation_callback_present _ _ _ _ Hp).
  - unfold run_callbacks. simpl.
    by rewrite (evaluation_errback_present _ _ _ _ Hp).
Qed.

Lemma after_training_success_count model_dir p :
  current_worker_processes (after_training_success model_dir p)
  = current_worker_processes p - 1.
Proof.
  unfold after_training_success.
  by destruct (bool_decide _ && _).
Qed.

Lemma after_training_success_message model_dir p :
  (status p = STATUS_FAILED -> is_Some (error_message p)) ->
  status (after_training_success model_dir p) = STATUS_FAILED ->
  is_Some (error_message (after_training_success model_dir p)).
Proof.
  unfold after_training_success.
  destruct (bool_decide _ && _); simpl; [discriminate | auto].
Qed.

Lemma Inv_step (s s' : System) ev : Inv s -> step s ev = Some s' -> Inv s'.
Proof.
  intros HInv Hstep. destruct ev as [data_file project cfg name
    | data project model | i future | i future]; simpl in Hstep.
  - injection Hstep as <-. unfold serve.
    destruct (decide (project = "")) as [-> | Hne].
    { rewrite start_train_process_unnamed. by destruct s, HInv. }
    destruct (Z.le_gt_cases (_worker_processes (router s))
                (_current_worker_processes (router s))) as [Hfull | Hroom].
    { rewrite start_train_process_full by done. by destruct s, HInv. }
    rewrite start_train_process_admitted by (done || lia).
    destruct (project_store (router s) !! project) as [p |] eqn:Hp; simpl.
    + apply (Inv_admitted s project _ p); try done. by left.
    + apply (Inv_admitted s project _
               (new_Project project (project_dir (router s)))); try done.
      by right.
  - injection Hstep as <-. unfold serve.
    destruct (evaluate_cases data project model (router s))
      as [[e ->] | (p & d & Hroom & Hp & Hd & ->)].
    { by destruct s, HInv. }
    eapply Inv_admitted; [exact HInv | lia | | left; exact Hp | | ].
    + unfold owner. by rewrite Hd.
    + reflexivity.
    + simpl. by apply (Inv_message s HInv _ _ Hp).
  - destruct (in_flight s !! i) as [[j [project | project]] |] eqn:Hi;
      try discriminate.
    injection Hstep as <-.
    destruct (Inv_owner s HInv _ (list_elem_of_lookup_2 _ _ _ Hi))
      as [p Hp].
    simpl in Hp. rewrite (fire_training _ _ _ _ _ Hp).
    apply (Inv_finished s i (mkDeferred j (TrainingHandlers project)) p);
      [exact HInv | exact Hi | exact Hp | |].
    + destruct future; [apply after_training_success_count | reflexivity].
    + destruct future; [| by eauto].
      apply after_training_success_message.
      by apply (Inv_message s HInv _ _ Hp).
  - destruct (in_flight s !! i) as [[j [project | project]] |] eqn:Hi;
      try discriminate.
    injection Hstep as <-.
    destruct (Inv_owner s HInv _ (list_elem_of_lookup_2 _ _ _ Hi))
      as [p Hp].
    simpl in Hp. rewrite (fire_evaluation _ _ _ _ _ Hp).
    apply (Inv_finished s i (mkDeferred j (EvaluationHandlers project)) p);
      [exact HInv | exact Hi | exact Hp | reflexivity |].
    simpl. by apply (Inv_message s HInv _ _ Hp).
Qed.

Lemma Inv_run evs : forall s s' : System,
  Inv s -> run s evs = Some s' -> Inv s'.
Proof.
  induction evs as [| ev evs IH]; intros s s' HInv Hrun; simpl in Hrun.
  - by injection Hrun as <-.
  - destruct (step s ev) as [s1 |] eqn:Hstep; [| discriminate].
    apply (IH s1 s'); [| exact Hrun]. by apply (Inv_step s s1 ev).
Qed.

Lemma reachable_Inv (s : System) : reachable s -> Inv s.
Proof.
  intros (s0 & evs & Hstart & Hrun).
  apply (Inv_run evs s0 s); [by apply Inv_started | exact Hrun].
Qed.
End ServerInvariant.

(** ** Properties of reachable systems *)

Section ReachableProperties.
Context `{Externals}.

(** C2: after any sequence of training and evaluation requests and of
    completions of in-flight jobs, successful or failed and in any order,
    the global counter lies between 0 and the capacity and equals the sum
    of the per-project counters. *)
Theorem counters_bounded_and_balanced (s : System) :
  reachable s ->
  0 <= _current_worker_processes (router s) <= _worker_processes (router s)
  /\ sum_project_counters (project_store (router s))
     = _current_worker_processes (router s).
Proof.
  intros Hreach. destruct (reachable_Inv s Hreach) as [Hglobal Hcap _ Hsum _].
  split; [lia | exact Hsum].
Qed.

(** C6, amended: in every reachable system a project whose status is
    FAILED has an error message; an error message, once set, stays when a
    later training request moves the status on. *)
Theorem failed_has_error_message (s : System) project p :
  reachable s ->
  project_store (router s) !! project = Some p ->
  status p = STATUS_FAILED ->
  is_Some (error_message p).
Proof.
  intros Hreach Hp Hfailed.
  exact (Inv_message s (reachable_Inv s Hreach) project p Hp Hfailed).
Qed.
End ReachableProperties.

(** ** The concrete scenarios *)

Lemma demo_started_started : @started demo_externals demo_started.
Proof.
  split; [reflexivity |].
  exists "projects", 2, None, false, ["A"]. reflexivity.
Qed.

Lemma demo_after_reachable evs :
  @run demo_externals demo_started evs = Some (demo_after evs) ->
  @reachable demo_externals (demo_after evs).
Proof.
  intros Hrun. exists demo_started, evs.
  split; [exact demo_started_started | exact Hrun].
Qed.

(** With one worker: the training of ["A"] is admitted, the training of
    ["B"] is turned away without registering ["B"], and once ["A"] has
    succeeded no job is in flight and ["A"] is READY. *)
Example single_worker_scenario_runs :
  match @run demo_externals demo_single single_worker_scenario with
  | Some s =>
      _current_worker_processes (router s) = 0
      /\ in_flight s = []
      /\ project_store (router s) !! "B" = None
      /\ project_store (router s) !! "A"
         = Some (mkProject STATUS_READY 0 None ["projects/A/model_1"]
                   "projects/A")
  | None => False
  end.
Proof. vm_compute. repeat split. Qed.

(** C3, counterexample: two trainings of ["A"] are admitted, the first
    fails, the second succeeds as the last job in flight; the count is then 0
    and the status is FAILED, not READY. *)
Lemma training_success_after_failure_not_ready :
  (exists s',
      @step demo_externals (demo_after one_failed_one_running)
        (TrainingDone 0 (Returned "projects/A/model_1")) = Some s'
      /\ (status <$> project_store (router s') !! "A") = Some STATUS_FAILED
      /\ (current_worker_processes <$> project_store (router s') !! "A")
         = Some 0)
  /\ ~ @ready_whenever_last demo_externals.
Proof.
  split.
  - eexists. split; [reflexivity |]. split; vm_compute; reflexivity.
  - intros Hall.
    assert (Hready :
      status (mkProject STATUS_FAILED 0
                (Some "[Failure instance: Traceback: <exception caught here>]")
                ["projects/A/model_1"] "projects/A") = STATUS_READY).
    { eapply (Hall (demo_after one_failed_one_running) _ 0%nat
                "projects/A/model_1" "A").
      - apply demo_after_reachable. vm_compute. reflexivity.
      - vm_compute. reflexivity.
      - reflexivity.
      - vm_compute. reflexivity.
      - reflexivity. }
    discriminate Hready.
Qed.

(** C6, counterexample: a training of ["A"] fails and ["A"] is trained
    again; its status is then TRAINING while the error message of the failed
    training is still set. *)
Lemma error_message_survives_retraining :
  (status <$> project_store (router (demo_after failed_then_retrained)) !! "A")
  = Some STATUS_TRAINING
  /\ (error_message
        <$> project_store (router (demo_after failed_then_retrained)) !! "A")
     = Some (Some "[Failure instance: Traceback: <exception caught here>]")
  /\ ~ @error_message_iff_failed demo_externals.
Proof.
  split; [vm_compute; reflexivity |]. split; [vm_compute; reflexivity |].
  intros Hall.
  assert (Hiff := Hall (demo_after failed_then_retrained) "A"
    (mkProject STATUS_TRAINING 1
       (Some "[Failure instance: Traceback: <exception caught here>]")
       [] "projects/A")).
  destruct Hiff as [Hfailed _].
  - apply demo_after_reachable. vm_compute. reflexivity.
  - vm_compute. reflexivity.
  - assert (Hst : STATUS_TRAINING = STATUS_FAILED)
      by (apply Hfailed; simpl; eauto).
    discriminate Hst.
Qed.

(** ** The theorems at concrete inputs *)

Lemma start_train_process_rejects_at_capacity_witness :
  "B" <> ""
  /\ _worker_processes demo_saturated
     <= _current_worker_processes demo_saturated
  /\ @start_train_process demo_externals "data.md" "B" demo_config None
       demo_saturated
     = (demo_saturated, inl MaxWorkerProcessError).
Proof.
  assert (Hname : "B" <> "") by discriminate.
  assert (Hfull : _worker_processes demo_saturated
                  <= _current_worker_processes demo_saturated)
    by (simpl; lia).
  split; [exact Hname |]. split; [exact Hfull |].
  exact (@start_train_process_rejects_at_capacity demo_externals "data.md"
           "B" demo_config None demo_saturated Hname Hfull).
Defined.

Lemma evaluate_rejects_at_capacity_first_witness :
  _worker_processes demo_saturated <= _current_worker_processes demo_saturated
  /\ @evaluate demo_externals "## intent:greet" (Some "unknown") None
       demo_saturated
     = (demo_saturated, inl MaxWorkerProcessError).
Proof.
  assert (Hfull : _worker_processes demo_saturated
                  <= _current_worker_processes demo_saturated)
    by (simpl; lia).
  split; [exact Hfull |].
  exact (@evaluate_rejects_at_capacity_first demo_externals "## intent:greet"
           (Some "unknown") None demo_saturated Hfull).
Defined.

Lemma training_callback_ready_when_last_witness :
  project_store (demo_last STATUS_TRAINING None) !! "A"
  = Some (mkProject STATUS_TRAINING 1 None ["model_0"] "projects/A")
  /\ exists self' p',
       @training_callback demo_externals "A" "projects/A/model_1"
         (demo_last STATUS_TRAINING None)
       = (self', inr "projects/A/model_1")
       /\ project_store self' !! "A" = Some p'
       /\ current_worker_processes p' = 1 - 1
       /\ (STATUS_TRAINING = STATUS_TRAINING ->
           current_worker_processes p' = 0 -> status p' = STATUS_READY)
       /\ (current_worker_processes p' <> 0 -> status p' = STATUS_TRAINING).
Proof.
  assert (Hp : project_store (demo_last STATUS_TRAINING None) !! "A"
               = Some (mkProject STATUS_TRAINING 1 None ["model_0"]
                         "projects/A"))
    by reflexivity.
  split; [exact Hp |].
  exact (@training_callback_ready_when_last demo_externals "A"
           "projects/A/model_1" (demo_last STATUS_TRAINING None) _ Hp).
Defined.

Lemma training_callback_keeps_failed_witness :
  project_store (demo_last STATUS_FAILED (Some "earlier failure")) !! "A"
  = Some (mkProject STATUS_FAILED 1 (Some "earlier failure") ["model_0"]
            "projects/A")
  /\ exists self' p',
       @training_callback demo_externals "A" "projects/A/model_1"
         (demo_last STATUS_FAILED (Some "earlier failure"))
       = (self', inr "projects/A/model_1")
       /\ project_store self' !! "A" = Some p'
       /\ (STATUS_FAILED = STATUS_FAILED -> status p' = STATUS_FAILED)
       /\ (status p' = STATUS_READY -> STATUS_FAILED <> STATUS_READY ->
           STATUS_FAILED = STATUS_TRAINING /\ 1 - 1 = 0).
Proof.
  assert (Hp : project_store (demo_last STATUS_FAILED (Some "earlier failure"))
                 !! "A"
               = Some (mkProject STATUS_FAILED 1 (Some "earlier failure")
                         ["model_0"] "projects/A"))
    by reflexivity.
  split; [exact Hp |].
  exact (@training_callback_keeps_failed demo_externals "A"
           "projects/A/model_1"
           (demo_last STATUS_FAILED (Some "earlier failure")) _ Hp).
Defined.

Lemma training_errback_marks_failed_witness :
  project_store (demo_busy STATUS_TRAINING None) !! "A"
  = Some (mkProject STATUS_TRAINING 2 None ["model_0"] "projects/A")
  /\ exists self' p' message,
       @training_errback demo_externals "A"
         (mkFailure (WorkerError "training failed"))
         (demo_busy STATUS_TRAINING None)
       = (self', inr (mkFailure (WorkerError "training failed")))
       /\ _current_worker_processes self' = 2 - 1
       /\ project_store self' !! "A" = Some p'
       /\ current_worker_processes p' = 2 - 1
       /\ status p' = STATUS_FAILED
       /\ error_message p' = Some message
       /\ message <> "".
Proof.
  assert (Hp : project_store (demo_busy STATUS_TRAINING None) !! "A"
               = Some (mkProject STATUS_TRAINING 2 None ["model_0"]
                         "projects/A"))
    by reflexivity.
  split; [exact Hp |].
  exact (@training_errback_marks_failed demo_externals "A"
           (mkFailure (WorkerError "training failed"))
           (demo_busy STATUS_TRAINING None) _ Hp).
Defined.

Lemma evaluation_completion_only_decrements_witness :
  project_store (demo_busy STATUS_TRAINING None) !! "A"
  = Some (mkProject STATUS_TRAINING 2 None ["model_0"] "projects/A")
  /\ (exists self',
         @evaluation_callback demo_externals "A" "report"
           (demo_busy STATUS_TRAINING None)
         = (self', inr "report")
         /\ only_counters_decremented "A" (demo_busy STATUS_TRAINING None)
              self')
  /\ (exists self',
         evaluation_errback "A"
           (mkFailure (WorkerError "evaluation failed"))
           (demo_busy STATUS_TRAINING None)
         = (self', inr (mkFailure (WorkerError "evaluation failed")))
         /\ only_counters_decremented "A" (demo_busy STATUS_TRAINING None)
              self').
Proof.
  assert (Hp : project_store (demo_busy STATUS_TRAINING None) !! "A"
               = Some (mkProject STATUS_TRAINING 2 None ["model_0"]
                         "projects/A"))
    by reflexivity.
  split; [exact Hp |].
  exact (@evaluation_completion_only_decrements demo_externals "A"
           (demo_busy STATUS_TRAINING None) _ "report"
           (mkFailure (WorkerError "evaluation failed")) Hp).
Defined.

Lemma counters_bounded_and_balanced_witness :
  @reachable demo_externals (demo_after one_failed_one_running)
  /\ 0 <= _current_worker_processes
            (router (demo_after one_failed_one_running))
       <= _worker_processes (router (demo_after one_failed_one_running))
  /\ sum_project_counters
       (project_store (router (demo_after one_failed_one_running)))
     = _current_worker_processes (router (demo_after one_failed_one_running)).
Proof.
  assert (Hreach : @reachable demo_externals
                     (demo_after one_failed_one_running)).
  { exists demo_started, one_failed_one_running.
    split; [| vm_compute; reflexivity].
    split; [reflexivity |].
    exists "projects", 2, None, false, ["A"]. reflexivity. }
  split; [exact Hreach |].
  exact (@counters_bounded_and_balanced demo_externals
           (demo_after one_failed_one_running) Hreach).
Defined.

Lemma failed_has_error_message_witness :
  @reachable demo_externals (demo_after one_failed_one_running)
  /\ project_store (router (demo_after one_failed_one_running)) !! "A"
     = Some demo_failed_record
  /\ status demo_failed_record = STATUS_FAILED
  /\ is_Some (error_message demo_failed_record).
Proof.
  assert (Hreach : @reachable demo_externals
                     (demo_after one_failed_one_running)).
  { exists demo_started, one_failed_one_running.
    split; [| vm_compute; reflexivity].
    split; [reflexivity |].
    exists "projects", 2, None, false, ["A"]. reflexivity. }
  assert (Hp : project_store (router (demo_after one_failed_one_running))
                 !! "A" = Some demo_failed_record)
    by (vm_compute; reflexivity).
  assert (Hfailed : status demo_failed_record = STATUS_FAILED)
    by reflexivity.
  split; [exact Hreach |]. split; [exact Hp |]. split; [exact Hfailed |].
  exact (@failed_has_error_message demo_externals
           (demo_after one_failed_one_running) "A" demo_failed_record
           Hreach Hp Hfailed).
Defined.

(** * Further properties *)

(** ** The bridge and the emulator factory *)

(** X1: with [DEFERRED_RUN_IN_REACTOR_THREAD] set, the done-callback only
    hands one call to the reactor and the Deferred has not fired when it
    returns; with the switch cleared the Deferred is fired inline and
    nothing is queued.  Neither way does the done-callback raise. *)
Theorem bridge_switch_moves_the_firing {V} (future : Future V) :
  let queued := Bridge.callback true future Bridge.initial in
  let inline := Bridge.callback false future Bridge.initial in
  Bridge.fired (fst queued) = []
  /\ List.length (Bridge.queue (fst queued)) = 1%nat
  /\ Bridge.fired (Bridge.reactor_iterate (fst queued)) = [job_outcome future]
  /\ Bridge.queue (Bridge.reactor_iterate (fst queued)) = []
  /\ Bridge.queue (fst inline) = []
  /\ Bridge.fired (fst inline) = [job_outcome future]
  /\ snd queued = inr tt
  /\ snd inline = inr tt.
Proof. destruct future as [v | e]; simpl; repeat split. Qed.

Lemma create_emulator_named (m : string) :
  _create_emulator (Some m)
  = if bool_decide (lower m = "wit") then inr WitEmulator
    else if bool_decide (lower m = "luis") then inr LUISEmulator
    else if bool_decide (lower m = "dialogflow") then inr DialogflowEmulator
    else inl (ValueError ("unknown mode : " ++ m)).
Proof.
  unfold _create_emulator.
  destruct (String.eqb_spec (lower m) "wit") as [E1 | E1];
    [by rewrite bool_decide_eq_true_2 | rewrite bool_decide_eq_false_2 by done].
  destruct (String.eqb_spec (lower m) "luis") as [E2 | E2];
    [by rewrite bool_decide_eq_true_2 | rewrite bool_decide_eq_false_2 by done].
  destruct (String.eqb_spec (lower m) "dialogflow") as [E3 | E3];
    [by rewrite bool_decide_eq_true_2 | by rewrite bool_decide_eq_false_2].
Qed.

(** X2: the factory returns [NoEmulator] exactly for the absent mode, and
    the Wit, LUIS and Dialogflow emulators exactly for the names whose
    lower-case forms are wit, luis and dialogflow. *)
Theorem create_emulator_selects (mode : option string) (e : Emulator) :
  _create_emulator mode = inr e <->
  match e with
  | NoEmulator => mode = None
  | WitEmulator => exists m, mode = Some m /\ lower m = "wit"
  | LUISEmulator => exists m, mode = Some m /\ lower m = "luis"
  | DialogflowEmulator => exists m, mode = Some m /\ lower m = "dialogflow"
  end.
Proof.
  destruct mode as [m |].
  - rewrite create_emulator_named. split.
    + repeat case_bool_decide; intros [= <-]; eauto.
    + destruct e; [discriminate | | |]; intros (m' & [= <-] & Hm);
        rewrite Hm; reflexivity.
  - simpl. split.
    + by intros [= <-].
    + destruct e; [done | | |]; intros (m' & Hm & _); discriminate.
Qed.

(** X3: two mode names that differ only in letter case select the same
    emulator, or are both rejected. *)
Theorem create_emulator_ignores_case (m1 m2 : string) :
  lower m1 = lower m2 ->
  match _create_emulator (Some m1), _create_emulator (Some m2) with
  | inr e1, inr e2 => e1 = e2
  | inl (ValueError _), inl (ValueError _) => True
  | _, _ => False
  end.
Proof.
  intros Hsame. rewrite !create_emulator_named, Hsame.
  repeat case_bool_decide; done.
Qed.

Lemma create_emulator_ignores_case_witness :
  lower "Wit" = lower "wIT"
  /\ match _create_emulator (Some "Wit"), _create_emulator (Some "wIT") with
     | inr e1, inr e2 => e1 = e2
     | inl (ValueError _), inl (ValueError _) => True
     | _, _ => False
     end.
Proof.
  assert (Hsame : lower "Wit" = lower "wIT") by reflexivity.
  split; [exact Hsame |].
  exact (create_emulator_ignores_case "Wit" "wIT" Hsame).
Defined.

(** ** Construction of the router *)

Section Construction.
Context `{Externals}.

Lemma fold_insert_dom (project_dir : string) (projects : list string) :
forall store : gmap string Project,
  dom (fold_left (fun store project =>
                    <[project := new_Project project project_dir]> store)
                 projects store)
  = list_to_set projects ∪ dom store.
Proof.
induction projects as [| x xs IH]; intros store; simpl.
- by rewrite (left_id_L ∅ (∪)).
- rewrite IH, dom_insert_L.
  by rewrite (comm_L (∪) {[x]} (list_to_set xs)), <- (assoc_L (∪)).
Qed.

(** X4: [_create_project_store] registers exactly the default project when
  a model server is configured or no project is listed, and exactly the
  listed projects otherwise, so the store is never empty; without a model
  server every record is the one the constructor gives for its name. *)
Theorem create_project_store_registers project_dir model_server projects :
let store := _create_project_store project_dir model_server projects in
dom store
= (if model_server then {[ DEFAULT_PROJECT_NAME ]}
   else match projects with
        | [] => {[ DEFAULT_PROJECT_NAME ]}
        | _ => list_to_set projects
        end)
/\ store <> ∅
/\ (model_server = false ->
    forall name p, store !! name = Some p ->
                   p = new_Project name project_dir).
Proof.
intros store.
assert (Hdom : dom store
  = (if model_server then {[ DEFAULT_PROJECT_NAME ]}
     else match projects with
          | [] => {[ DEFAULT_PROJECT_NAME ]}
          | _ => list_to_set projects
          end)).
{ unfold store, _create_project_store. destruct model_server.
  - apply dom_singleton_L.
  - destruct projects as [| x xs].
    + simpl. rewrite bool_decide_eq_true_2 by reflexivity.
      apply dom_singleton_L.
    + rewrite bool_decide_eq_false_2.
      * by rewrite fold_insert_dom, dom_empty_L, (right_id_L ∅ (∪)).
      * intros Hempty. apply (f_equal dom) in Hempty.
        rewrite fold_insert_dom, dom_empty_L in Hempty. set_solver. }
split; [exact Hdom |]. split.
- intros Hempty. rewrite Hempty, dom_empty_L in Hdom.
  destruct model_server; [set_solver |].
  destruct projects; set_solver.
- intros _ name p Hp. by apply _create_project_store_new in Hp.
Qed.

End Construction.

(** ** Requests *)

Section RequestProperties.
Context `{Externals}.

Lemma start_train_process_returns data_file project train_config model_name
  self self' d :
start_train_process data_file project train_config model_name self
= (self', inr d) ->
project <> "" /\ _current_worker_processes self < _worker_processes self.
Proof.
intros Hstart.
destruct (decide (project = "")) as [-> | Hne].
{ rewrite start_train_process_unnamed in Hstart. discriminate. }
destruct (Z.le_gt_cases (_worker_processes self)
            (_current_worker_processes self)) as [Hfull | Hroom].
- rewrite start_train_process_full in Hstart by done. discriminate.
- split; [exact Hne | lia].
Qed.




(** X9: an admitted evaluation request adds one to the global counter and
  to the counter of the evaluated project, which was registered already;
  the project keeps its status, error message and models, no project is
  registered and no other project is touched. *)
Theorem evaluate_admission data project model self self' d :
evaluate data project model self = (self', inr d) ->
let name := py_or project DEFAULT_PROJECT_NAME in
handlers d = EvaluationHandlers name
/\ _current_worker_processes self < _worker_processes self
/\ _current_worker_processes self' = _current_worker_processes self + 1
/\ _worker_processes self' = _worker_processes self
/\ dom (project_store self') = dom (project_store self)
/\ (forall other, other <> name ->
      project_store self' !! other = project_store self !! other)
/\ exists p p',
     project_store self !! name = Some p
     /\ project_store self' !! name = Some p'
     /\ current_worker_processes p' = current_worker_processes p + 1
     /\ status p' = status p
     /\ error_message p' = error_message p
     /\ _models p' = _models p
     /\ py_or model (_dynamic_load_model p model) <> FALLBACK_MODEL_NAME.
Proof.
intros Heval name.
destruct (evaluate_cases data project model self)
  as [[e He] | (p & d' & Hroom & Hp & Hd & He)];
  rewrite He in Heval; [discriminate |].
injection Heval as <- <-. fold name in Hp, Hd.
split; [exact Hd |]. split; [exact Hroom |].
split; [reflexivity |]. split; [reflexivity |]. split.
{ simpl. apply dom_insert_lookup_L. eauto. }
split; [intros other Hother; by apply lookup_insert_ne |].
exists p, (after_evaluate_admission p).
split; [exact Hp |]. split; [apply lookup_insert_eq |].
repeat (split; [reflexivity |]).
intros Hfallback.
destruct (evaluate_rejected data project model self) as [e He'].
{ right. right. exists p. by split. }
rewrite He in He'. discriminate.
Qed.

(** X10: an evaluation request that names no project, or names the empty
  project, is served exactly as one that names the default project. *)
Theorem evaluate_defaults_project data model self :
evaluate data None model self
= evaluate data (Some DEFAULT_PROJECT_NAME) model self
/\ evaluate data (Some "") model self
   = evaluate data (Some DEFAULT_PROJECT_NAME) model self.
Proof.
assert (Hor : py_or (Some DEFAULT_PROJECT_NAME) DEFAULT_PROJECT_NAME
              = DEFAULT_PROJECT_NAME).
{ unfold py_or. by destruct DEFAULT_PROJECT_NAME. }
unfold evaluate. rewrite Hor. split; reflexivity.
Qed.
End RequestProperties.

(** ** Requests followed by their completion *)

Section RoundTrips.
Context `{Externals}.

Lemma finished_admitted self project q p :
project_store self !! project = Some p ->
finished (admitted self project q) project p = self.
Proof.
intros Hp. destruct self as [cap cur dir em store]. simpl in Hp.
unfold finished, admitted. simpl. f_equal; [lia |].
rewrite insert_insert_eq. by apply insert_id.
Qed.

Lemma after_evaluation_admission p :
after_evaluation (after_evaluate_admission p) = p.
Proof.
destruct p as [st n msg ms path].
unfold after_evaluation, after_evaluate_admission,
  set_current_worker_processes. simpl. f_equal. lia.
Qed.

(** X11: an admitted evaluation followed by the completion of its job,
  successful or failed, leaves the router exactly as it was before the
  request. *)
Theorem evaluate_then_completion_restores data project model self self1 d
  (result : EvaluationResult) (failure : Failure) :
evaluate data project model self = (self1, inr d) ->
let name := py_or project DEFAULT_PROJECT_NAME in
handlers d = EvaluationHandlers name
/\ evaluation_callback name result self1 = (self, inr result)
/\ evaluation_errback name failure self1 = (self, inr failure).
Proof.
intros Heval name.
destruct (evaluate_cases data project model self)
  as [[e He] | (p & d' & Hroom & Hp & Hd & He)];
  rewrite He in Heval; [discriminate |].
injection Heval as <- <-. fold name in Hp, Hd.
assert (Hin : project_store (admitted self name (after_evaluate_admission p))
                !! name = Some (after_evaluate_admission p))
  by apply lookup_insert_eq.
split; [exact Hd |]. split.
- rewrite (evaluation_callback_present _ _ _ _ Hin).
  by rewrite after_evaluation_admission, finished_admitted.
- rewrite (evaluation_errback_present _ _ _ _ Hin).
  by rewrite after_evaluation_admission, finished_admitted.
Qed.

(** X12: an admitted training followed by the success of its job puts the
  global counter and the project's counter back to where they were (0
  for a project the request registered), records the model under the
  project, and leaves the project READY when no other job of it is in
  flight and TRAINING otherwise; other projects are not touched. *)
Theorem training_then_success data_file project train_config model_name
  self self1 d model_path :
start_train_process data_file project train_config model_name self
= (self1, inr d) ->
exists self2 p2,
  training_callback project model_path self1 = (self2, inr model_path)
  /\ _current_worker_processes self2 = _current_worker_processes self
  /\ project_store self2 !! project = Some p2
  /\ current_worker_processes p2
     = from_option current_worker_processes 0
         (project_store self !! project)
  /\ (current_worker_processes p2 = 0 -> status p2 = STATUS_READY)
  /\ (current_worker_processes p2 <> 0 -> status p2 = STATUS_TRAINING)
  /\ basename_normpath model_path ∈ _models p2
  /\ (forall other, other <> project ->
        project_store self2 !! other = project_store self !! other).
Proof.
intros Hstart.
destruct (start_train_process_returns _ _ _ _ _ _ _ Hstart)
  as [Hne Hroom].
rewrite start_train_process_admitted in Hstart by done.
injection Hstart as <- _.
eexists _, _.
split; [apply training_callback_present; apply lookup_insert_eq |].
split; [simpl; lia |].
split; [apply lookup_insert_eq |].
unfold after_training_success. simpl.
set (p := default (new_Project project (project_dir self))
            (project_store self !! project)).
assert (Hcount : current_worker_processes p
                 = from_option current_worker_processes 0
                     (project_store self !! project)).
{ unfold p. by destruct (project_store self !! project). }
destruct (Z.eqb_spec (current_worker_processes p + 1 - 1) 0) as [H0 | H0];
  simpl.
- split; [lia |]. split; [done |]. split; [lia |].
  split; [apply list_elem_of_here |].
  intros other Hother. by rewrite !lookup_insert_ne.
- split; [lia |]. split; [lia |]. split; [done |].
  split; [apply list_elem_of_here |].
  intros other Hother. by rewrite !lookup_insert_ne.
Qed.

(** X13: an admitted training followed by the failure of its job puts both
  counters back to where they were and leaves the project FAILED with
  the text of the failure as its error message, whether or not other
  jobs of the project are in flight. *)
Theorem training_then_failure data_file project train_config model_name
  self self1 d failure :
start_train_process data_file project train_config model_name self
= (self1, inr d) ->
exists self2 p2,
  training_errback project failure self1 = (self2, inr failure)
  /\ _current_worker_processes self2 = _current_worker_processes self
  /\ project_store self2 !! project = Some p2
  /\ current_worker_processes p2
     = from_option current_worker_processes 0
         (project_store self !! project)
  /\ status p2 = STATUS_FAILED
  /\ error_message p2 = Some (str_Failure failure)
  /\ (forall other, other <> project ->
        project_store self2 !! other = project_store self !! other).
Proof.
intros Hstart.
destruct (start_train_process_returns _ _ _ _ _ _ _ Hstart)
  as [Hne Hroom].
rewrite start_train_process_admitted in Hstart by done.
injection Hstart as <- _.
eexists _, _.
split; [apply training_errback_present; apply lookup_insert_eq |].
split; [simpl; lia |].
split; [apply lookup_insert_eq |]. simpl.
split; [destruct (project_store self !! project); simpl; lia |].
split; [reflexivity |]. split; [reflexivity |].
intros other Hother. by rewrite !lookup_insert_ne.
Qed.

(** X14: the handlers of a project that is not registered raise
  [KeyError]: the success callback of a training before any change, the
  other three after having taken one off the global counter; the project
  store is not touched. *)
Theorem handlers_of_unregistered_project project self model_path
  (result : EvaluationResult) (failure : Failure) :
project_store self !! project = None ->
let decremented :=
  set_current (_current_worker_processes self - 1) self in
training_callback project model_path self = (self, inl (KeyError project))
/\ training_errback project failure self
   = (decremented, inl (KeyError project))
/\ evaluation_callback project result self
   = (decremented, inl (KeyError project))
/\ evaluation_errback project failure self
   = (decremented, inl (KeyError project)).
Proof.
intros Hnone decremented.
split; [| split; [by apply training_errback_absent |]].
- unfold training_callback, Py.bind at 1.
  by rewrite (setattr_absent _ _ _ Hnone).
- split.
  + unfold evaluation_callback, Py.bind at 1, Py.modify.
    unfold Py.bind at 1. by rewrite setattr_absent.
  + unfold evaluation_errback, Py.bind at 1, Py.modify.
    unfold Py.bind at 1. by rewrite setattr_absent.
Qed.
End RoundTrips.

(** ** The jobs in flight *)

Section StepCases.
Context `{Externals}.

Lemma step_train_request (s s' : System) data_file project train_config
  model_name :
step s (TrainRequest data_file project train_config model_name) = Some s' ->
DEFERRED_RUN_IN_REACTOR_THREAD s' = DEFERRED_RUN_IN_REACTOR_THREAD s
/\ ((router s' = router s /\ in_flight s' = in_flight s)
    \/ (project <> ""
        /\ _current_worker_processes (router s)
           < _worker_processes (router s)
        /\ router s'
           = admitted (router s) project
               (after_train_admission
                  (default (new_Project project (project_dir (router s)))
                     (project_store (router s) !! project)))
        /\ in_flight s'
           = (in_flight s
                ++ [mkDeferred
                      (do_train_in_worker train_config data_file
                         (project_dir (router s)) project model_name)
                      (TrainingHandlers project)])%list)).
Proof.
simpl. intros [= <-]. unfold serve.
destruct (decide (project = "")) as [-> | Hne].
{ rewrite start_train_process_unnamed. split; [reflexivity |]. by left. }
destruct (Z.le_gt_cases (_worker_processes (router s))
            (_current_worker_processes (router s))) as [Hfull | Hroom].
{ rewrite start_train_process_full by done.
  split; [reflexivity |]. by left. }
rewrite start_train_process_admitted by (done || lia).
split; [reflexivity |]. right. repeat split; (done || lia).
Qed.

Lemma step_evaluate_request (s s' : System) data project model :
step s (EvaluateRequest data project model) = Some s' ->
DEFERRED_RUN_IN_REACTOR_THREAD s' = DEFERRED_RUN_IN_REACTOR_THREAD s
/\ ((router s' = router s /\ in_flight s' = in_flight s)
    \/ (exists name p d,
          _current_worker_processes (router s)
          < _worker_processes (router s)
          /\ project_store (router s) !! name = Some p
          /\ handlers d = EvaluationHandlers name
          /\ router s'
             = admitted (router s) name (after_evaluate_admission p)
          /\ in_flight s' = (in_flight s ++ [d])%list)).
Proof.
simpl. intros [= <-]. unfold serve.
destruct (evaluate_cases data project model (router s))
  as [[e ->] | (p & d & Hroom & Hp & Hd & ->)].
{ split; [reflexivity |]. by left. }
split; [reflexivity |]. right.
exists (py_or project DEFAULT_PROJECT_NAME), p, d. repeat split; done.
Qed.

Lemma step_training_done (s s' : System) i future :
Inv s ->
step s (TrainingDone i future) = Some s' ->
exists j project p,
  in_flight s !! i = Some (mkDeferred j (TrainingHandlers project))
  /\ project_store (router s) !! project = Some p
  /\ DEFERRED_RUN_IN_REACTOR_THREAD s' = DEFERRED_RUN_IN_REACTOR_THREAD s
  /\ router s'
     = finished (router s) project
         match future with
         | Returned path =>
             after_training_success (basename_normpath path) p
         | Raised e => after_training_failure (mkFailure e) p
         end
  /\ in_flight s' = delete i (in_flight s).
Proof.
intros HInv. simpl.
destruct (in_flight s !! i) as [[j [project | project]] |] eqn:Hi;
  try discriminate.
intros [= <-].
destruct (Inv_owner s HInv _ (list_elem_of_lookup_2 _ _ _ Hi)) as [p Hp].
simpl in Hp. exists j, project, p. simpl.
rewrite (fire_training _ _ _ _ _ Hp). repeat split; done.
Qed.

Lemma step_evaluation_done (s s' : System) i future :
Inv s ->
step s (EvaluationDone i future) = Some s' ->
exists j project p,
  in_flight s !! i = Some (mkDeferred j (EvaluationHandlers project))
  /\ project_store (router s) !! project = Some p
  /\ DEFERRED_RUN_IN_REACTOR_THREAD s' = DEFERRED_RUN_IN_REACTOR_THREAD s
  /\ router s' = finished (router s) project (after_evaluation p)
  /\ in_flight s' = delete i (in_flight s).
Proof.
intros HInv. simpl.
destruct (in_flight s !! i) as [[j [project | project]] |] eqn:Hi;
  try discriminate.
intros [= <-].
destruct (Inv_owner s HInv _ (list_elem_of_lookup_2 _ _ _ Hi)) as [p Hp].
simpl in Hp. exists j, project, p. simpl.
rewrite (fire_evaluation _ _ _ _ _ Hp). repeat split; done.
Qed.
End StepCases.

Section FilterCount.
Context {A : Type} (P : A -> Prop) `{!forall x, Decision (P x)}.

Lemma filter_length_snoc (l : list A) (d : A) :
List.length (filter P (l ++ [d])%list)
= (List.length (filter P l) + if decide (P d) then 1 else 0)%nat.
Proof.
rewrite filter_app, length_app. f_equal.
rewrite filter_cons, filter_nil. by destruct (decide (P d)).
Qed.

Lemma filter_length_delete (l : list A) : forall (i : nat) (d : A),
l !! i = Some d ->
List.length (filter P l)
= (List.length (filter P (delete i l)) + if decide (P d) then 1 else 0)%nat.
Proof.
induction l as [| x l IH]; intros i d Hi; [discriminate |].
destruct i as [| i]; simpl in Hi.
- injection Hi as ->. simpl. rewrite filter_cons.
  destruct (decide (P d)); simpl; lia.
- simpl. rewrite !filter_cons. specialize (IH i d Hi).
  destruct (decide (P x)); simpl; lia.
Qed.

Lemma filter_length_none (l : list A) :
(forall d, d ∈ l -> ~ P d) -> List.length (filter P l) = 0%nat.
Proof.
induction l as [| x l IH]; intros Hnone; [reflexivity |].
rewrite filter_cons. destruct (decide (P x)) as [Hx | _].
- exfalso. apply (Hnone x); [apply list_elem_of_here | exact Hx].
- apply IH. intros d Hd. apply Hnone. by apply list_elem_of_further.
Qed.

Lemma filter_length_zero (l : list A) (d : A) :
List.length (filter P l) = 0%nat -> d ∈ l -> ~ P d.
Proof.
intros Hzero Hd Hp.
assert (Hin : d ∈ filter P l) by (apply list_elem_of_filter; by split).
destruct (filter P l); [by apply elem_of_nil in Hin | discriminate].
Qed.
End FilterCount.

Section Accounting.
Context `{Externals}.

Lemma count_owner_snoc project (l : list Deferred) d :
count_owner project (l ++ [d])%list
= (count_owner project l + if decide (owner d = project) then 1 else 0)%nat.
Proof. exact (filter_length_snoc (fun d => owner d = project) l d). Qed.

Lemma count_training_snoc project (l : list Deferred) d :
count_training project (l ++ [d])%list
= (count_training project l
   + if decide (handlers d = TrainingHandlers project) then 1 else 0)%nat.
Proof.
exact (filter_length_snoc
         (fun d => handlers d = TrainingHandlers project) l d).
Qed.

Lemma count_owner_delete project (l : list Deferred) i d :
l !! i = Some d ->
count_owner project l
= (count_owner project (delete i l)
   + if decide (owner d = project) then 1 else 0)%nat.
Proof. exact (filter_length_delete (fun d => owner d = project) l i d). Qed.

Lemma count_training_delete project (l : list Deferred) i d :
l !! i = Some d ->
count_training project l
= (count_training project (delete i l)
   + if decide (handlers d = TrainingHandlers project) then 1 else 0)%nat.
Proof.
exact (filter_length_delete
         (fun d => handlers d = TrainingHandlers project) l i d).
Qed.

Lemma count_owner_unregistered (s : System) project :
Inv s ->
project_store (router s) !! project = None ->
count_owner project (in_flight s) = 0%nat.
Proof.
intros HInv Hnone. apply filter_length_none. intros d Hd Howner.
destruct (Inv_owner s HInv d Hd) as [p Hp]. congruence.
Qed.

Lemma count_training_idle project (l : list Deferred) :
count_owner project l = 0%nat -> count_training project l = 0%nat.
Proof.
intros Hzero. apply filter_length_none. intros d Hd Htraining.
apply (filter_length_zero (fun d => owner d = project) l d Hzero Hd).
unfold owner. by rewrite Htraining.
Qed.

Lemma Accounted_started (s : System) : started s -> Accounted s.
Proof.
intros Hstart. pose proof Hstart as [Hnone _].
split; rewrite Hnone.
- intros project p Hp. destruct Hstart as [_ (dir & n & mode & srv & ps & Hi)].
  unfold DataRouter_init in Hi.
  destruct (_create_emulator mode); [discriminate |].
  injection Hi as Hrouter. rewrite <- Hrouter in Hp. simpl in Hp.
  apply _create_project_store_new in Hp. by subst p.
- reflexivity.
Qed.

Lemma Accounted_same (s s' : System) :
router s' = router s -> in_flight s' = in_flight s ->
Accounted s -> Accounted s'.
Proof.
intros Hr Hl [Hcount Hready].
split; rewrite Hr, Hl; [exact Hcount | exact Hready].
Qed.

(** Admission of a job of [project] by handlers [d]. *)
Lemma Accounted_admitted (s s' : System) project d p' :
Inv s -> Accounted s ->
owner d = project ->
current_worker_processes p'
= from_option current_worker_processes 0
    (project_store (router s) !! project) + 1 ->
(status p' = STATUS_READY ->
 handlers d <> TrainingHandlers project
 /\ exists p, project_store (router s) !! project = Some p
              /\ status p = STATUS_READY) ->
router s' = admitted (router s) project p' ->
in_flight s' = (in_flight s ++ [d])%list ->
Accounted s'.
Proof.
intros HInv [Hcount Hready] Hd Hp' Hst Hr Hl.
split; rewrite Hr, Hl; simpl; intros k q; rewrite lookup_insert;
  case_decide as Hk.
- intros [= <-]. subst k. rewrite count_owner_snoc, Hp'.
  rewrite decide_True by exact Hd.
  destruct (project_store (router s) !! project) as [p |] eqn:Hp; simpl.
  + rewrite (Hcount project p Hp). lia.
  + rewrite (count_owner_unregistered s project HInv Hp). lia.
- intros Hq. rewrite count_owner_snoc, (Hcount k q Hq).
  rewrite decide_False by congruence. lia.
- intros [= <-] Hq. subst k. destruct (Hst Hq) as [Hd' (p & Hp & Hpst)].
  rewrite count_training_snoc, (Hready project p Hp Hpst).
  by rewrite decide_False.
- intros Hq Hqst. rewrite count_training_snoc, (Hready k q Hq Hqst).
  rewrite decide_False; [reflexivity |].
  intros Htr. apply Hk. unfold owner in Hd. rewrite Htr in Hd. congruence.
Qed.

(** Completion of the job of [project] whose Deferred sits at index [i]. *)
Lemma Accounted_finished (s s' : System) i d p p' :
Accounted s ->
in_flight s !! i = Some d ->
project_store (router s) !! owner d = Some p ->
current_worker_processes p' = current_worker_processes p - 1 ->
(status p' = STATUS_READY ->
 current_worker_processes p' = 0
 \/ (status p = STATUS_READY /\ handlers d <> TrainingHandlers (owner d))) ->
router s' = finished (router s) (owner d) p' ->
in_flight s' = delete i (in_flight s) ->
Accounted s'.
Proof.
intros [Hcount Hready] Hi Hp Hp' Hst Hr Hl.
assert (Hnew : current_worker_processes p'
               = Z.of_nat (count_owner (owner d) (delete i (in_flight s)))).
{ pose proof (count_owner_delete (owner d) _ _ _ Hi) as Hdel.
  rewrite decide_True in Hdel by reflexivity.
  rewrite Hp', (Hcount _ p Hp). lia. }
split; rewrite Hr, Hl; simpl; intros k q; rewrite lookup_insert;
  case_decide as Hk.
- intros [= <-]. by subst k.
- intros Hq. pose proof (count_owner_delete k _ _ _ Hi) as Hdel.
  rewrite decide_False in Hdel by congruence.
  rewrite (Hcount k q Hq). lia.
- intros [= <-] Hq. subst k.
  destruct (Hst Hq) as [Hzero | [Hpst Hd]].
  + apply count_training_idle. lia.
  + pose proof (count_training_delete (owner d) _ _ _ Hi) as Hdel.
    rewrite (Hready _ p Hp Hpst) in Hdel. lia.
- intros Hq Hqst.
  pose proof (count_training_delete k _ _ _ Hi) as Hdel.
  rewrite (Hready k q Hq Hqst) in Hdel. lia.
Qed.

Lemma Accounted_step (s s' : System) ev :
Inv s -> Accounted s -> step s ev = Some s' -> Accounted s'.
Proof.
intros HInv Hacc Hstep.
destruct ev as [data_file project cfg name | data project model
                | i future | i future].
- destruct (step_train_request _ _ _ _ _ _ Hstep)
    as [_ [[Hr Hl] | (Hne & Hroom & Hr & Hl)]].
  { by apply (Accounted_same s). }
  eapply (Accounted_admitted s s' project);
    [exact HInv | exact Hacc | | | | exact Hr | exact Hl].
  + reflexivity.
  + simpl. by destruct (project_store (router s) !! project).
  + simpl. discriminate.
- destruct (step_evaluate_request _ _ _ _ _ Hstep)
    as [_ [[Hr Hl] | (name & p & d & Hroom & Hp & Hd & Hr & Hl)]].
  { by apply (Accounted_same s). }
  eapply (Accounted_admitted s s' name d);
    [exact HInv | exact Hacc | | | | exact Hr | exact Hl].
  + unfold owner. by rewrite Hd.
  + by rewrite Hp.
  + simpl. intros Hst. split; [by rewrite Hd |]. by exists p.
- destruct (step_training_done _ _ _ _ HInv Hstep)
    as (j & project & p & Hi & Hp & _ & Hr & Hl).
  eapply (Accounted_finished s s' i _ p);
    [exact Hacc | exact Hi | exact Hp | | | exact Hr | exact Hl].
  + destruct future; [apply after_training_success_count | reflexivity].
  + destruct future as [path | e]; [| discriminate].
    unfold after_training_success. simpl.
    destruct (bool_decide (status p = STATUS_TRAINING)
              && (current_worker_processes p - 1 =? 0)%Z) eqn:Hlast; simpl.
    * intros _. left. apply andb_prop in Hlast. lia.
    * intros Hst. exfalso.
      pose proof (count_training_delete project _ _ _ Hi) as Hdel.
      rewrite (Accounted_ready s Hacc project p Hp Hst) in Hdel.
      rewrite decide_True in Hdel by reflexivity. lia.
- destruct (step_evaluation_done _ _ _ _ HInv Hstep)
    as (j & project & p & Hi & Hp & _ & Hr & Hl).
  eapply (Accounted_finished s s' i _ p);
    [exact Hacc | exact Hi | exact Hp | | | exact Hr | exact Hl].
  + reflexivity.
  + simpl. intros Hst. right. by split.
Qed.

Lemma Accounted_run evs : forall s s' : System,
Inv s -> Accounted s -> run s evs = Some s' -> Accounted s'.
Proof.
induction evs as [| ev evs IH]; intros s s' HInv Hacc Hrun; simpl in Hrun.
- by injection Hrun as <-.
- destruct (step s ev) as [s1 |] eqn:Hstep; [| discriminate].
  apply (IH s1 s'); [| | exact Hrun].
  + by apply (Inv_step s s1 ev).
  + by apply (Accounted_step s s1 ev).
Qed.

Lemma reachable_Accounted (s : System) : reachable s -> Accounted s.
Proof.
intros (s0 & evs & Hstart & Hrun).
apply (Accounted_run evs s0 s);
  [by apply Inv_started | by apply Accounted_started | exact Hrun].
Qed.
End Accounting.

Section InFlight.
Context `{Externals}.


(** X16: in every reachable system a project whose status is READY has no
  training in flight. *)
Theorem ready_project_has_no_training_in_flight (s : System) project p d :
reachable s ->
project_store (router s) !! project = Some p ->
status p = STATUS_READY ->
d ∈ in_flight s ->
handlers d <> TrainingHandlers project.
Proof.
intros Hreach Hp Hst Hd.
apply (filter_length_zero
         (fun d => handlers d = TrainingHandlers project)
         (in_flight s) d); [| exact Hd].
exact (Accounted_ready s (reachable_Accounted s Hreach) project p Hp Hst).
Qed.

Lemma step_keeps_registered (s s' : System) ev :
Inv s -> step s ev = Some s' ->
dom (project_store (router s)) ⊆ dom (project_store (router s'))
/\ _worker_processes (router s') = _worker_processes (router s)
/\ project_dir (router s') = project_dir (router s)
/\ emulator (router s') = emulator (router s)
/\ DEFERRED_RUN_IN_REACTOR_THREAD s' = DEFERRED_RUN_IN_REACTOR_THREAD s.
Proof.
intros HInv Hstep.
assert (Hsame : forall r, r = router s ->
          dom (project_store (router s)) ⊆ dom (project_store r)
          /\ _worker_processes r = _worker_processes (router s)
          /\ project_dir r = project_dir (router s)
          /\ emulator r = emulator (router s)).
{ intros r ->. done. }
assert (Hadm : forall r project q, r = admitted (router s) project q ->
          dom (project_store (router s)) ⊆ dom (project_store r)
          /\ _worker_processes r = _worker_processes (router s)
          /\ project_dir r = project_dir (router s)
          /\ emulator r = emulator (router s)).
{ intros r project q ->. simpl. split; [apply dom_insert_subseteq | done]. }
assert (Hfin : forall r project q, r = finished (router s) project q ->
          dom (project_store (router s)) ⊆ dom (project_store r)
          /\ _worker_processes r = _worker_processes (router s)
          /\ project_dir r = project_dir (router s)
          /\ emulator r = emulator (router s)).
{ intros r project q ->. simpl. split; [apply dom_insert_subseteq | done]. }
destruct ev as [data_file project cfg name | data project model
                | i future | i future].
- destruct (step_train_request _ _ _ _ _ _ Hstep)
    as [Hflag [[Hr Hl] | (Hne & Hroom & Hr & Hl)]].
  + destruct (Hsame _ Hr) as (? & ? & ? & ?). done.
  + destruct (Hadm _ _ _ Hr) as (? & ? & ? & ?). done.
- destruct (step_evaluate_request _ _ _ _ _ Hstep)
    as [Hflag [[Hr Hl] | (name & p & d & Hroom & Hp & Hd & Hr & Hl)]].
  + destruct (Hsame _ Hr) as (? & ? & ? & ?). done.
  + destruct (Hadm _ _ _ Hr) as (? & ? & ? & ?). done.
- destruct (step_training_done _ _ _ _ HInv Hstep)
    as (j & project & p & Hi & Hp & Hflag & Hr & Hl).
  destruct (Hfin _ _ _ Hr) as (? & ? & ? & ?). done.
- destruct (step_evaluation_done _ _ _ _ HInv Hstep)
    as (j & project & p & Hi & Hp & Hflag & Hr & Hl).
  destruct (Hfin _ _ _ Hr) as (? & ? & ? & ?). done.
Qed.

(** X17: whatever happens after a reachable system, every project that is
  registered stays registered, and the capacity, the project directory,
  the emulator and the bridge switch stay as they are. *)
Theorem projects_stay_registered (s s' : System) evs :
reachable s ->
run s evs = Some s' ->
dom (project_store (router s)) ⊆ dom (project_store (router s'))
/\ _worker_processes (router s') = _worker_processes (router s)
/\ project_dir (router s') = project_dir (router s)
/\ emulator (router s') = emulator (router s)
/\ DEFERRED_RUN_IN_REACTOR_THREAD s' = DEFERRED_RUN_IN_REACTOR_THREAD s.
Proof.
intros Hreach. apply reachable_Inv in Hreach. revert s Hreach.
induction evs as [| ev evs IH]; intros s HInv Hrun; simpl in Hrun.
- injection Hrun as <-. done.
- destruct (step s ev) as [s1 |] eqn:Hstep; [| discriminate].
  destruct (step_keeps_registered s s1 ev HInv Hstep)
    as (Hdom & Hcap & Hdir & Hem & Hflag).
  destruct (IH s1 (Inv_step s s1 ev HInv Hstep) Hrun)
    as (Hdom' & Hcap' & Hdir' & Hem' & Hflag').
  split; [by etrans |]. repeat split; congruence.
Qed.


(** X19: in every reachable system the handlers attached to an in-flight
  Deferred do not raise and pass on what they are given: fired with the
  outcome of its job, the Deferred ends up with that very outcome, the
  model path or evaluation result on success and the failure otherwise. *)
Theorem handlers_pass_outcome_on (s : System) d :
reachable s ->
d ∈ in_flight s ->
match handlers d with
| TrainingHandlers project =>
    forall future : Future string,
      snd (run_callbacks (training_callback project)
             (training_errback project) (job_outcome future) (router s))
      = job_outcome future
| EvaluationHandlers project =>
    forall future : Future EvaluationResult,
      snd (run_callbacks (evaluation_callback project)
             (evaluation_errback project) (job_outcome future) (router s))
      = job_outcome future
end.
Proof.
intros Hreach Hd.
destruct (Inv_owner s (reachable_Inv s Hreach) d Hd) as [p Hp].
unfold owner in Hp.
destruct (handlers d) as [project | project]; intros [v | e];
  unfold run_callbacks; simpl.
- by rewrite (training_callback_present _ _ _ _ Hp).
- by rewrite (training_errback_present _ _ _ _ Hp).
- by rewrite (evaluation_callback_present _ _ _ _ Hp).
- by rewrite (evaluation_errback_present _ _ _ _ Hp).
Qed.
End InFlight.

(** ** Unloading a model *)

Section UnloadProperties.
Context {Unloaded : Type}.
Variable unload : Project -> string -> Project * (Exception + Unloaded).

Lemma unload_model_registered project model self p :
project_store self !! project = Some p ->
unload_model unload (Some project) model self
= (set_project_store
     (<[project := fst (unload p model)]> (project_store self)) self,
   match snd (unload p model) with
   | inl (KeyError _) =>
       inl (InvalidProjectError
              ("Failed to unload model " ++ model ++ " for project "
                 ++ project ++ "."))
   | r => r
   end).
Proof.
intros Hp. unfold unload_model, Py.bind at 1, Py.get.
rewrite bool_decide_eq_false_2 by (rewrite Hp; discriminate).
unfold except_KeyError, call_unload, Py.bind, getitem, Py.ret, Py.raise.
rewrite Hp. destruct (unload p model) as [p' [[] | u]]; reflexivity.
Qed.

(** X20: [unload_model] never raises [KeyError]: the [KeyError] that
  [Project.unload] raises for a model that is not loaded reaches the
  caller as [InvalidProjectError], and every other result of
  [Project.unload] is passed on as it is. *)
Theorem unload_model_never_raises_KeyError project model self :
(forall key,
   snd (unload_model unload project model self) <> inl (KeyError key))
/\ forall name p,
     project = Some name ->
     project_store self !! name = Some p ->
     snd (unload_model unload project model self)
     = match snd (unload p model) with
       | inl (KeyError _) =>
           inl (InvalidProjectError
                  ("Failed to unload model " ++ model ++ " for project "
                     ++ name ++ "."))
       | r => r
       end.
Proof.
split.
- intros key. destruct project as [name |]; [| discriminate].
  destruct (project_store self !! name) as [p |] eqn:Hp.
  + rewrite (unload_model_registered _ _ _ _ Hp). simpl.
    destruct (snd (unload p model)) as [[] | u]; discriminate.
  + unfold unload_model, Py.bind, Py.get.
    rewrite bool_decide_eq_true_2 by exact Hp. discriminate.
- intros name p -> Hp. by rewrite (unload_model_registered _ _ _ _ Hp).
Qed.

(** X21: without a project, or with a project that is not registered,
  [unload_model] raises [InvalidProjectError] without calling
  [Project.unload], and the router stays as it was. *)
Theorem unload_model_rejects_unknown_project project model self :
(forall name, project = Some name -> project_store self !! name = None) ->
unload_model unload project model self
= (self,
   inl (InvalidProjectError
          match project with
          | None => "No project specified"
          | Some name => "Project " ++ name ++ " could not be found"
          end)).
Proof.
intros Hunknown. destruct project as [name |]; [| reflexivity].
unfold unload_model, Py.bind, Py.get.
by rewrite bool_decide_eq_true_2 by (by apply Hunknown).
Qed.

(** X22: [unload_model] changes at most the record of the named project:
  the counters of the router, its capacity, the set of registered
  projects and every other record stay as they were. *)
Theorem unload_model_frame project model self :
let self' := fst (unload_model unload project model self) in
_current_worker_processes self' = _current_worker_processes self
/\ _worker_processes self' = _worker_processes self
/\ dom (project_store self') = dom (project_store self)
/\ forall other, project <> Some other ->
     project_store self' !! other = project_store self !! other.
Proof.
destruct project as [name |]; [| done].
destruct (project_store self !! name) as [p |] eqn:Hp.
- rewrite (unload_model_registered _ _ _ _ Hp). simpl.
  split; [reflexivity |]. split; [reflexivity |]. split.
  + apply dom_insert_lookup_L. eauto.
  + intros other Hother. apply lookup_insert_ne. congruence.
- unfold unload_model, Py.bind, Py.get.
  rewrite bool_decide_eq_true_2 by exact Hp. done.
Qed.
End UnloadProperties.

(** ** Parsing *)

Section ParseProperties.
Context `{Externals} `{ParseServices}.


Lemma resolve_project_unlisted project self :
project_store self !! project = None ->
project ∉ (_list_projects (project_dir self) ++ _list_projects_in_cloud)%list
->
resolve_project project self
= (self, inl (InvalidProjectError
                ("No project found with name '" ++ project ++ "'."))).
Proof.
intros Hnone Hunlisted. unfold resolve_project, Py.bind, Py.get.
rewrite bool_decide_eq_true_2 by exact Hnone.
by rewrite bool_decide_eq_true_2 by exact Hunlisted.
Qed.

Lemma resolve_project_listed project self :
project_store self !! project = None ->
project ∈ (_list_projects (project_dir self) ++ _list_projects_in_cloud)%list
->
resolve_project project self
= match Project_raises project (project_dir self) with
  | Some e =>
      (self, inl (InvalidProjectError
                    ("Unable to load project '" ++ project
                       ++ "'. Error: " ++ str_Exception e)))
  | None =>
      (set_project_store
         (<[project := new_Project project (project_dir self)]>
            (project_store self)) self,
       inr tt)
  end.
Proof.
intros Hnone Hlisted. unfold resolve_project, Py.bind, Py.get.
rewrite bool_decide_eq_true_2 by exact Hnone.
rewrite bool_decide_eq_false_2 by (intros Hnot; by apply Hnot).
unfold except_Exception.
by destruct (Project_raises project (project_dir self)).
Qed.

Lemma call_parse_registered data project time model self p :
project_store self !! project = Some p ->
call_parse data project time model self
= match data !! "text" with
  | None => (self, inl (KeyError "text"))
  | Some text =>
      (set_project_store
         (<[project := fst (Project_parse p text time model)]>
            (project_store self)) self,
       snd (Project_parse p text time model))
  end.
Proof.
intros Hp. unfold call_parse, Py.bind, getitem. rewrite Hp.
destruct (data !! "text") as [text |]; [| reflexivity].
by destruct (Project_parse p text time model).
Qed.






(** X23: a parse request for a project that is neither registered nor
  listed, locally or in the cloud, or whose project is [None], raises
  [InvalidProjectError]; nothing is registered and nothing is logged. *)
Theorem parse_rejects_unknown_project data (s : Service) :
(forall name,
   default (Some DEFAULT_PROJECT_NAME) (data !! "project") = Some name ->
   project_store (service_router s) !! name = None
   /\ name ∉ (_list_projects (project_dir (service_router s))
                ++ _list_projects_in_cloud)%list) ->
exists message, parse data s = (s, inl (InvalidProjectError message)).
Proof.
intros Hunknown. unfold parse.
destruct (default (Some DEFAULT_PROJECT_NAME) (data !! "project"))
  as [name |]; [| eexists; reflexivity].
destruct (Hunknown name eq_refl) as [Hnone Hunlisted].
unfold Py.bind. rewrite (resolve_project_unlisted _ _ Hnone Hunlisted).
destruct s. eexists. reflexivity.
Qed.

(** X24: a parse request for a listed project that is not registered and
  cannot be constructed raises [InvalidProjectError] carrying the text of
  the error; nothing is registered and nothing is logged. *)
Theorem parse_reports_unloadable_project data (s : Service) name e :
default (Some DEFAULT_PROJECT_NAME) (data !! "project") = Some name ->
project_store (service_router s) !! name = None ->
name ∈ (_list_projects (project_dir (service_router s))
          ++ _list_projects_in_cloud)%list ->
Project_raises name (project_dir (service_router s)) = Some e ->
parse data s
= (s, inl (InvalidProjectError
             ("Unable to load project '" ++ name ++ "'. Error: "
                ++ str_Exception e))).
Proof.
intros Hname Hnone Hlisted Hraises. unfold parse. rewrite Hname.
unfold Py.bind. rewrite (resolve_project_listed _ _ Hnone Hlisted), Hraises.
by destruct s.
Qed.

(** X25: a parse request for a listed project that is not registered
  registers a newly constructed record for it before the text is read: a
  request without text raises [KeyError] and leaves the project
  registered, with nothing logged. *)
Theorem parse_registers_before_reading_text data (s : Service) name :
default (Some DEFAULT_PROJECT_NAME) (data !! "project") = Some name ->
project_store (service_router s) !! name = None ->
name ∈ (_list_projects (project_dir (service_router s))
          ++ _list_projects_in_cloud)%list ->
Project_raises name (project_dir (service_router s)) = None ->
data !! "text" = None ->
parse data s
= (mkService
     (set_project_store
        (<[name := new_Project name (project_dir (service_router s))]>
           (project_store (service_router s)))
        (service_router s))
     (responses s),
   inl (KeyError "text")).
Proof.
intros Hname Hnone Hlisted Hok Htext. unfold parse. rewrite Hname.
unfold Py.bind. rewrite (resolve_project_listed _ _ Hnone Hlisted), Hok.
erewrite call_parse_registered by (simpl; apply lookup_insert_eq).
by rewrite Htext.
Qed.

End ParseProperties.

(** ** The further properties at concrete inputs *)



Lemma evaluate_admission_witness :
  demo_evaluation = (fst demo_evaluation, inr demo_evaluation_deferred)
  /\ handlers demo_evaluation_deferred = EvaluationHandlers "A"
  /\ _current_worker_processes (fst demo_evaluation) = 1 + 1
  /\ dom (project_store (fst demo_evaluation))
     = dom (project_store (demo_last STATUS_READY None))
  /\ exists p p',
       project_store (demo_last STATUS_READY None) !! "A" = Some p
       /\ project_store (fst demo_evaluation) !! "A" = Some p'
       /\ current_worker_processes p' = current_worker_processes p + 1
       /\ status p' = status p
       /\ error_message p' = error_message p.
Proof.
  assert (Heval : demo_evaluation
                  = (fst demo_evaluation, inr demo_evaluation_deferred))
    by (vm_compute; reflexivity).
  split; [exact Heval |].
  destruct (@evaluate_admission demo_externals _ _ _ _ _ _ Heval)
    as (Hd & _ & Hcur & _ & Hdom & _ & p & p' & Hp & Hp' & Hc & Hs & He & _).
  split; [exact Hd |]. split; [exact Hcur |]. split; [exact Hdom |].
  exists p, p'. repeat split; assumption.
Defined.

Lemma evaluate_then_completion_restores_witness :
  demo_evaluation = (fst demo_evaluation, inr demo_evaluation_deferred)
  /\ @evaluation_callback demo_externals "A" "report" (fst demo_evaluation)
     = (demo_last STATUS_READY None, inr "report")
  /\ evaluation_errback "A" (mkFailure (WorkerError "evaluation failed"))
       (fst demo_evaluation)
     = (demo_last STATUS_READY None,
        inr (mkFailure (WorkerError "evaluation failed"))).
Proof.
  assert (Heval : demo_evaluation
                  = (fst demo_evaluation, inr demo_evaluation_deferred))
    by (vm_compute; reflexivity).
  split; [exact Heval |].
  destruct (@evaluate_then_completion_restores demo_externals _ _ _ _ _ _
              "report" (mkFailure (WorkerError "evaluation failed")) Heval)
    as (_ & Hcb & Heb).
  split; [exact Hcb | exact Heb].
Defined.

Lemma training_then_success_witness :
  demo_training = (fst demo_training, inr demo_training_deferred)
  /\ exists self2 p2,
       @training_callback demo_externals "B" "projects/B/model_1"
         (fst demo_training)
       = (self2, inr "projects/B/model_1")
       /\ _current_worker_processes self2 = 1
       /\ project_store self2 !! "B" = Some p2
       /\ current_worker_processes p2 = 0
       /\ status p2 = STATUS_READY.
Proof.
  assert (Htrain : demo_training
                   = (fst demo_training, inr demo_training_deferred))
    by (vm_compute; reflexivity).
  split; [exact Htrain |].
  destruct (@training_then_success demo_externals _ _ _ _ _ _ _
              "projects/B/model_1" Htrain)
    as (self2 & p2 & Hcb & Hcur & Hp2 & Hcount & Hready & _).
  exists self2, p2. repeat split; try assumption.
  apply Hready. exact Hcount.
Defined.

Lemma training_then_failure_witness :
  demo_training = (fst demo_training, inr demo_training_deferred)
  /\ exists self2 p2,
       @training_errback demo_externals "B"
         (mkFailure (WorkerError "training failed")) (fst demo_training)
       = (self2, inr (mkFailure (WorkerError "training failed")))
       /\ _current_worker_processes self2 = 1
       /\ project_store self2 !! "B" = Some p2
       /\ current_worker_processes p2 = 0
       /\ status p2 = STATUS_FAILED.
Proof.
  assert (Htrain : demo_training
                   = (fst demo_training, inr demo_training_deferred))
    by (vm_compute; reflexivity).
  split; [exact Htrain |].
  destruct (@training_then_failure demo_externals _ _ _ _ _ _ _
              (mkFailure (WorkerError "training failed")) Htrain)
    as (self2 & p2 & Heb & Hcur & Hp2 & Hcount & Hfailed & _).
  exists self2, p2. repeat split; assumption.
Defined.

Lemma handlers_of_unregistered_project_witness :
  project_store demo_saturated !! "gone" = None
  /\ @training_callback demo_externals "gone" "projects/gone/model_1"
       demo_saturated
     = (demo_saturated, inl (KeyError "gone"))
  /\ @training_errback demo_externals "gone"
       (mkFailure (WorkerError "training failed")) demo_saturated
     = (set_current 0 demo_saturated, inl (KeyError "gone")).
Proof.
  assert (Hnone : project_store demo_saturated !! "gone" = None)
    by reflexivity.
  split; [exact Hnone |].
  destruct (@handlers_of_unregistered_project demo_externals "gone"
              demo_saturated "projects/gone/model_1" "report"
              (mkFailure (WorkerError "training failed")) Hnone)
    as (Hcb & Heb & _).
  split; [exact Hcb | exact Heb].
Defined.


Lemma ready_project_has_no_training_in_flight_witness :
  @reachable demo_externals (demo_after training_of_B)
  /\ project_store (router (demo_after training_of_B)) !! "A"
     = Some demo_idle_record
  /\ status demo_idle_record = STATUS_READY
  /\ demo_training_deferred ∈ in_flight (demo_after training_of_B)
  /\ handlers demo_training_deferred <> TrainingHandlers "A".
Proof.
  assert (Hreach : @reachable demo_externals (demo_after training_of_B)).
  { exists demo_started, training_of_B.
    split; [| vm_compute; reflexivity].
    split; [reflexivity |].
    exists "projects", 2, None, false, ["A"]. reflexivity. }
  assert (Hp : project_store (router (demo_after training_of_B)) !! "A"
               = Some demo_idle_record)
    by (vm_compute; reflexivity).
  assert (Hst : status demo_idle_record = STATUS_READY) by reflexivity.
  assert (Hl : in_flight (demo_after training_of_B)
               = [demo_training_deferred])
    by (vm_compute; reflexivity).
  assert (Hd : demo_training_deferred ∈ in_flight (demo_after training_of_B)).
  { rewrite Hl. apply list_elem_of_here. }
  split; [exact Hreach |]. split; [exact Hp |]. split; [exact Hst |].
  split; [exact Hd |].
  exact (@ready_project_has_no_training_in_flight demo_externals
           (demo_after training_of_B) "A" demo_idle_record
           demo_training_deferred Hreach Hp Hst Hd).
Defined.

Lemma projects_stay_registered_witness :
  @reachable demo_externals demo_started
  /\ @run demo_externals demo_started training_of_B
     = Some (demo_after training_of_B)
  /\ dom (project_store (router demo_started))
     ⊆ dom (project_store (router (demo_after training_of_B)))
  /\ _worker_processes (router (demo_after training_of_B)) = 2.
Proof.
  assert (Hreach : @reachable demo_externals demo_started).
  { exists demo_started, [].
    split; [| reflexivity].
    split; [reflexivity |].
    exists "projects", 2, None, false, ["A"]. reflexivity. }
  assert (Hrun : @run demo_externals demo_started training_of_B
                 = Some (demo_after training_of_B))
    by (vm_compute; reflexivity).
  split; [exact Hreach |]. split; [exact Hrun |].
  destruct (@projects_stay_registered demo_externals demo_started
              (demo_after training_of_B) training_of_B Hreach Hrun)
    as (Hdom & Hcap & _).
  split; [exact Hdom | exact Hcap].
Defined.


Lemma handlers_pass_outcome_on_witness :
  @reachable demo_externals (demo_after training_of_B)
  /\ demo_training_deferred ∈ in_flight (demo_after training_of_B)
  /\ forall future : Future string,
       snd (@run_callbacks string
              (@training_callback demo_externals "B")
              (@training_errback demo_externals "B")
              (job_outcome future) (router (demo_after training_of_B)))
       = job_outcome future.
Proof.
  assert (Hreach : @reachable demo_externals (demo_after training_of_B)).
  { exists demo_started, training_of_B.
    split; [| vm_compute; reflexivity].
    split; [reflexivity |].
    exists "projects", 2, None, false, ["A"]. reflexivity. }
  assert (Hl : in_flight (demo_after training_of_B)
               = [demo_training_deferred])
    by (vm_compute; reflexivity).
  assert (Hd : demo_training_deferred ∈ in_flight (demo_after training_of_B)).
  { rewrite Hl. apply list_elem_of_here. }
  split; [exact Hreach |]. split; [exact Hd |].
  exact (@handlers_pass_outcome_on demo_externals
           (demo_after training_of_B) demo_training_deferred Hreach Hd).
Defined.

Lemma unload_model_rejects_unknown_project_witness :
  (forall name, Some "nowhere" = Some name ->
                project_store demo_saturated !! name = None)
  /\ unload_model demo_unload (Some "nowhere") "model_0" demo_saturated
     = (demo_saturated,
        inl (InvalidProjectError "Project nowhere could not be found")).
Proof.
  assert (Hunknown : forall name, Some "nowhere" = Some name ->
                       project_store demo_saturated !! name = None).
  { intros name [= <-]. reflexivity. }
  split; [exact Hunknown |].
  exact (unload_model_rejects_unknown_project demo_unload (Some "nowhere")
           "model_0" demo_saturated Hunknown).
Defined.

Lemma parse_rejects_unknown_project_witness :
  (forall name,
     default (Some (@DEFAULT_PROJECT_NAME demo_externals))
       (demo_request_unlisted !! "project") = Some name ->
     project_store (service_router demo_service) !! name = None
     /\ name ∉ (@_list_projects demo_services
                  (project_dir (service_router demo_service))
                  ++ @_list_projects_in_cloud demo_services)%list)
  /\ exists message,
       @parse demo_externals demo_services demo_request_unlisted
         demo_service
       = (demo_service, inl (InvalidProjectError message)).
Proof.
  assert (Hunknown : forall name,
    default (Some (@DEFAULT_PROJECT_NAME demo_externals))
      (demo_request_unlisted !! "project") = Some name ->
    project_store (service_router demo_service) !! name = None
    /\ name ∉ (@_list_projects demo_services
                 (project_dir (service_router demo_service))
                 ++ @_list_projects_in_cloud demo_services)%list).
  { intros name Hname. vm_compute in Hname. injection Hname as <-.
    split; [reflexivity |]. intros Hin.
    repeat (apply elem_of_cons in Hin; destruct Hin as [Heq | Hin];
            [discriminate Heq |]).
    by apply elem_of_nil in Hin. }
  split; [exact Hunknown |].
  exact (@parse_rejects_unknown_project demo_externals demo_services
           demo_request_unlisted demo_service Hunknown).
Defined.

Lemma parse_reports_unloadable_project_witness :
  default (Some (@DEFAULT_PROJECT_NAME demo_externals))
    (demo_request_broken !! "project") = Some "broken"
  /\ project_store (service_router demo_service) !! "broken" = None
  /\ "broken" ∈ (@_list_projects demo_services
                   (project_dir (service_router demo_service))
                   ++ @_list_projects_in_cloud demo_services)%list
  /\ @Project_raises demo_services "broken"
       (project_dir (service_router demo_service))
     = Some (WorkerError "no such directory")
  /\ @parse demo_externals demo_services demo_request_broken demo_service
     = (demo_service,
        inl (InvalidProjectError
               "Unable to load project 'broken'. Error: no such directory")).
Proof.
  assert (Hname : default (Some (@DEFAULT_PROJECT_NAME demo_externals))
                    (demo_request_broken !! "project") = Some "broken")
    by (vm_compute; reflexivity).
  assert (Hnone : project_store (service_router demo_service) !! "broken"
                  = None)
    by reflexivity.
  assert (Hlisted : "broken"
                    ∈ (@_list_projects demo_services
                         (project_dir (service_router demo_service))
                         ++ @_list_projects_in_cloud demo_services)%list).
  { simpl. do 2 apply list_elem_of_further. apply list_elem_of_here. }
  assert (Hraises : @Project_raises demo_services "broken"
                      (project_dir (service_router demo_service))
                    = Some (WorkerError "no such directory"))
    by reflexivity.
  split; [exact Hname |]. split; [exact Hnone |]. split; [exact Hlisted |].
  split; [exact Hraises |].
  exact (@parse_reports_unloadable_project demo_externals demo_services
           demo_request_broken demo_service "broken"
           (WorkerError "no such directory") Hname Hnone Hlisted Hraises).
Defined.

Lemma parse_registers_before_reading_text_witness :
  default (Some (@DEFAULT_PROJECT_NAME demo_externals))
    (demo_request_C !! "project") = Some "C"
  /\ project_store (service_router demo_service) !! "C" = None
  /\ "C" ∈ (@_list_projects demo_services
              (project_dir (service_router demo_service))
              ++ @_list_projects_in_cloud demo_services)%list
  /\ @Project_raises demo_services "C"
       (project_dir (service_router demo_service)) = None
  /\ demo_request_C !! "text" = None
  /\ @parse demo_externals demo_services demo_request_C demo_service
     = (mkService
          (set_project_store
             (<["C" := @new_Project demo_externals "C" "projects"]>
                (project_store (service_router demo_service)))
             (service_router demo_service))
          (responses demo_service),
        inl (KeyError "text")).
Proof.
  assert (Hname : default (Some (@DEFAULT_PROJECT_NAME demo_externals))
                    (demo_request_C !! "project") = Some "C")
    by (vm_compute; reflexivity).
  assert (Hnone : project_store (service_router demo_service) !! "C" = None)
    by reflexivity.
  assert (Hlisted : "C"
                    ∈ (@_list_projects demo_services
                         (project_dir (service_router demo_service))
                         ++ @_list_projects_in_cloud demo_services)%list).
  { simpl. apply list_elem_of_further. apply list_elem_of_here. }
  assert (Hok : @Project_raises demo_services "C"
                  (project_dir (service_router demo_service)) = None)
    by reflexivity.
  assert (Htext : demo_request_C !! "text" = None) by reflexivity.
  split; [exact Hname |]. split; [exact Hnone |]. split; [exact Hlisted |].
  split; [exact Hok |]. split; [exact Htext |].
  exact (@parse_registers_before_reading_text demo_externals demo_services
           demo_request_C demo_service "C" Hname Hnone Hlisted Hok Htext).
Defined.
